(** * pyvoa: the error-reporting module [pyvoa/error.py] and the geolocation
      lookups it serves.

    The first part embeds [error.py] as it is compiled (CPython 3.12):
    [blinking_centered_text], the eleven exception classes and their
    [__init__] methods, over an explicit world (terminal, standard output)
    and an outcome type for raised exceptions.  The second part models the
    geolocation lookups of [pyvoa.geo], whose code is not in the tree. *)

From Stdlib Require Import ZArith List String Ascii Bool Lia DecimalString
  DecimalPos.
Import ListNotations.
Open Scope string_scope.

(** ** Python string and integer primitives used by [error.py]

    Strings are byte strings; the primitives below are CPython's on ASCII
    text (for a non-ASCII byte: no case mapping, not a space, not a digit). *)
Module Py.

Definition ESC : string := String "027"%char EmptyString.
Definition NL : string := String "010"%char EmptyString.

(** [len(s)] *)
Definition len (s : string) : Z := Z.of_nat (String.length s).

Definition lower_ascii (c : ascii) : ascii :=
  let n := nat_of_ascii c in
  if (65 <=? n)%nat && (n <=? 90)%nat then ascii_of_nat (n + 32) else c.

(** [s.lower()] *)
Fixpoint lower (s : string) : string :=
  match s with
  | EmptyString => EmptyString
  | String c r => String (lower_ascii c) (lower r)
  end.

(** [c.isspace()]: TAB, LF, VT, FF, CR, FS, GS, RS, US and the space. *)
Definition isspace (c : ascii) : bool :=
  let n := nat_of_ascii c in
  ((9 <=? n)%nat && (n <=? 13)%nat) || ((28 <=? n)%nat && (n <=? 32)%nat).

(** [s.split()]: the maximal runs of non-space characters. *)
Fixpoint split_from (cur : option string) (s : string) : list string :=
  match s with
  | EmptyString => match cur with Some w => [w] | None => [] end
  | String c r =>
      if isspace c then
        match cur with
        | Some w => w :: split_from None r
        | None => split_from None r
        end
      else
        split_from
          (Some (match cur with
                 | Some w => w ++ String c EmptyString
                 | None => String c EmptyString
                 end)) r
  end.

Definition split (s : string) : list string := split_from None s.

Fixpoint lstrip (s : string) : string :=
  match s with
  | String c r => if isspace c then lstrip r else s
  | EmptyString => EmptyString
  end.

Fixpoint rev_string (acc s : string) : string :=
  match s with
  | EmptyString => acc
  | String c r => rev_string (String c acc) r
  end.

(** [s.strip()] *)
Definition strip (s : string) : string :=
  rev_string EmptyString (lstrip (rev_string EmptyString (lstrip s))).

Definition digit_of (c : ascii) : option Z :=
  let n := nat_of_ascii c in
  if (48 <=? n)%nat && (n <=? 57)%nat then Some (Z.of_nat (n - 48)) else None.

(** Decimal digits, with single underscores allowed between two digits. *)
Fixpoint digits (acc : Z) (after_digit : bool) (s : string) : option Z :=
  match s with
  | EmptyString => if after_digit then Some acc else None
  | String c r =>
      match digit_of c with
      | Some d => digits (10 * acc + d)%Z true r
      | None =>
          if Ascii.eqb c "_"%char && after_digit then digits acc false r
          else None
      end
  end.

(** [int(s)] on a string, base ten; [None] stands for [ValueError]. *)
Definition int (s : string) : option Z :=
  match strip s with
  | String "-"%char r => option_map Z.opp (digits 0 false r)
  | String "+"%char r => digits 0 false r
  | t => digits 0 false t
  end.

(** [str(n)] on an integer. *)
Definition str (n : Z) : string := NilZero.string_of_int (Z.to_int n).

Definition spaces (n : Z) : string :=
  String.concat EmptyString (repeat " " (Z.to_nat n)).

Definition SSIZE_MAX : Z := (2 ^ 63 - 1)%Z.

(** [s.center(width)] with the default fill character; [None] stands for
    the [OverflowError] of a width that does not fit [Py_ssize_t].
    CPython: the string itself when [len(s) >= width], otherwise
    [left = marg / 2 + (marg & width & 1)] spaces before and
    [marg - left] after, where [marg = width - len(s)]. *)
Definition center (s : string) (width : Z) : option string :=
  if ((width <? - SSIZE_MAX - 1) || (SSIZE_MAX <? width))%Z then None
  else if (width <=? len s)%Z then Some s
  else
    let marg := (width - len s)%Z in
    let left := (marg / 2 + Z.land (Z.land marg width) 1)%Z in
    Some (spaces left ++ s ++ spaces (marg - left)).

(** A [dict] with string keys, as the ordered list of its items. *)
Definition dict (V : Type) := list (string * V).

(** [d[k]]; [None] stands for [KeyError]. *)
Fixpoint getitem {V} (d : dict V) (k : string) : option V :=
  match d with
  | [] => None
  | (k', v) :: r => if String.eqb k k' then Some v else getitem r k
  end.

(** [d.get(k, default)] *)
Definition get {V} (d : dict V) (k : string) (default : V) : V :=
  match getitem d k with Some v => v | None => default end.

(** [d[k] = v] on a dictionary under construction: a new key goes last,
    an existing key keeps its place. *)
Fixpoint setitem {V} (d : dict V) (k : string) (v : V) : dict V :=
  match d with
  | [] => [(k, v)]
  | (k', v') :: r =>
      if String.eqb k k' then (k', v) :: r else (k', v') :: setitem r k v
  end.

(** Truth value of an integer argument. *)
Definition truthy (z : Z) : bool := negb (z =? 0)%Z.

End Py.

(** ** Exception classes

    The classes [error.py] declares, and the built-in classes they derive
    from or raise. *)
Inductive pyclass : Type :=
  | CoaInfo | CoaDBInfo | CoaWarning | CoaError
  | CoaNoData | CoaWhereError | CoaTypeError | CoaLookupError
  | CoaNotManagedError | CoaDbError | CoaConnectionError
  | object | BaseException | Exception | SystemExit
  | LookupError | IndexError | KeyError | TypeError | ValueError
  | OSError | ConnectionError | OverflowError | UnicodeEncodeError.

Definition pyclass_eqb (c d : pyclass) : bool :=
  match c, d with
  | CoaInfo, CoaInfo | CoaDBInfo, CoaDBInfo | CoaWarning, CoaWarning
  | CoaError, CoaError | CoaNoData, CoaNoData
  | CoaWhereError, CoaWhereError | CoaTypeError, CoaTypeError
  | CoaLookupError, CoaLookupError
  | CoaNotManagedError, CoaNotManagedError | CoaDbError, CoaDbError
  | CoaConnectionError, CoaConnectionError
  | object, object | BaseException, BaseException | Exception, Exception
  | SystemExit, SystemExit | LookupError, LookupError
  | IndexError, IndexError | KeyError, KeyError | TypeError, TypeError
  | ValueError, ValueError | OSError, OSError
  | ConnectionError, ConnectionError | OverflowError, OverflowError
  | UnicodeEncodeError, UnicodeEncodeError => true
  | _, _ => false
  end.

(** The base classes written in each [class] statement (for the built-in
    classes, the bases CPython gives them). *)
Definition bases (c : pyclass) : list pyclass :=
  match c with
  | CoaInfo => [Exception]
  | CoaDBInfo => [Exception]
  | CoaWarning => [Exception]
  | CoaError => [Exception]
  | CoaNoData => [CoaError; IndexError]
  | CoaWhereError => [CoaError; IndexError]
  | CoaTypeError => [CoaError; TypeError]
  | CoaLookupError => [CoaError; LookupError]
  | CoaNotManagedError => [CoaError]
  | CoaDbError => [CoaError]
  | CoaConnectionError => [CoaError; ConnectionError]
  | object => []
  | BaseException => [object]
  | Exception => [BaseException]
  | SystemExit => [BaseException]
  | LookupError => [Exception]
  | IndexError => [LookupError]
  | KeyError => [LookupError]
  | TypeError => [Exception]
  | ValueError => [Exception]
  | OSError => [Exception]
  | ConnectionError => [OSError]
  | OverflowError => [Exception]    (* through ArithmeticError *)
  | UnicodeEncodeError => [ValueError]    (* through UnicodeError *)
  end.

(** The classes of the module, in the order of their [class] statements. *)
Definition module_classes : list pyclass :=
  [CoaInfo; CoaDBInfo; CoaWarning; CoaError; CoaNoData; CoaWhereError;
   CoaTypeError; CoaLookupError; CoaNotManagedError; CoaDbError;
   CoaConnectionError].

(** The first line of the docstring of each class of the module. *)
Definition class_doc (c : pyclass) : option string :=
  match c with
  | CoaInfo | CoaDBInfo | CoaWarning | CoaError =>
      Some "Base class for exceptions in PyCoa."
  | CoaNoData =>
      Some "Exception raised when there is no data to plot or to manage (invalid cut)"
  | CoaWhereError => Some "Exception raised for location errors."
  | CoaTypeError => Some "Exception raised for type mismatch errors."
  | CoaLookupError => Some "Exception raised for type lookup errors."
  | CoaNotManagedError =>
      Some "Exception raised when the error is unknown and not managed."
  | CoaDbError => Some "Exception raised for database errors."
  | CoaConnectionError => Some "Exception raised for connection errors."
  | _ => None
  end.

(** [issubclass(c, d)]: [d] is [c] or is reached through the bases of [c].
    The fuel bounds the height of the hierarchy. *)
Fixpoint issubclass_upto (fuel : nat) (c d : pyclass) : bool :=
  pyclass_eqb c d ||
  match fuel with
  | O => false
  | S n => existsb (fun b => issubclass_upto n b d) (bases c)
  end.

Definition issubclass (c d : pyclass) : bool := issubclass_upto 6 c d.

(** The same relation, as the reflexive and transitive closure of [bases]. *)
Inductive subclass : pyclass -> pyclass -> Prop :=
  | subclass_refl c : subclass c c
  | subclass_base c b d : In b (bases c) -> subclass b d -> subclass c d.

(** ** Values, exceptions, the world and the monad of effects *)

Inductive pyval : Type :=
  | VStr (s : string)
  | VInt (z : Z).

(** An exception instance: its class and its [args]. *)
Record exn : Type := mkExn { exn_class : pyclass; exn_args : list pyval }.

(** What a call ends with: a value, or a raised exception. *)
Inductive outcome (A : Type) : Type :=
  | Return (a : A)
  | Raise (e : exn).
Arguments Return {A} a.
Arguments Raise {A} e.

(** The world [error.py] acts on: what the successive
    [os.popen('stty size', 'r').read()] give ([None] when the call raises),
    how many were made, and the strings written to [sys.stdout]. *)
Record World : Type := mkWorld {
  stty : nat -> option string;
  popens : nat;
  stdout : list string
}.

Definition M (A : Type) : Type := World -> outcome A * World.

Definition ret {A} (a : A) : M A := fun w => (Return a, w).

Definition bind {A B} (m : M A) (k : A -> M B) : M B :=
  fun w =>
    match m w with
    | (Return a, w') => k a w'
    | (Raise e, w') => (Raise e, w')
    end.

Definition raise {A} (e : exn) : M A := fun w => (Raise e, w).

Notation "x <- m ;; k" := (bind m (fun x => k))
  (at level 61, m at next level, right associativity).
Notation "m ;;; k" := (bind m (fun _ => k))
  (at level 61, right associativity).

(** A Python operation that can only fail with one class of exception. *)
Definition orraise {A} (c : pyclass) (o : option A) : M A :=
  match o with
  | Some a => ret a
  | None => raise (mkExn c [])
  end.

(** [try: body / except: handler], the bare [except] that takes everything. *)
Definition try_except {A} (body : M A) (handler : M A) : M A :=
  fun w =>
    match body w with
    | (Return a, w') => (Return a, w')
    | (Raise _, w') => handler w'
    end.

(** [try: body / except cls: handler].  The clause is looked at only when
    the body raises; matching against a class that does not derive from
    [BaseException] is itself a [TypeError]. *)
Definition try_except_cls {A} (cls : pyclass) (body : M A) (handler : M A)
  : M A :=
  fun w =>
    match body w with
    | (Return a, w') => (Return a, w')
    | (Raise e, w') =>
        if issubclass cls BaseException then
          if issubclass (exn_class e) cls then handler w' else (Raise e, w')
        else
          (Raise (mkExn TypeError
                    [VStr "catching classes that do not inherit from BaseException is not allowed"]),
           w')
    end.

(** [os.popen('stty size', 'r').read()] *)
Definition popen_stty_read : M string :=
  fun w =>
    let w' := mkWorld (stty w) (S (popens w)) (stdout w) in
    match stty w (popens w) with
    | Some s => (Return s, w')
    | None => (Raise (mkExn OSError []), w')
    end.

(** [sys.stdout.write(s)] *)
Definition stdout_write (s : string) : M unit :=
  fun w => (Return tt, mkWorld (stty w) (popens w) (stdout w ++ [s])).

(** [sys.exit(code)] *)
Definition sys_exit {A} (code : Z) : M A := raise (mkExn SystemExit [VInt code]).

(** [rows, columns = l] *)
Definition unpack2 (l : list string) : option (string * string) :=
  match l with
  | [a; b] => Some (a, b)
  | _ => None
  end.

(** ** [blinking_centered_text] *)

Definition color_codes : Py.dict string :=
  [("black", "30"); ("red", "31"); ("green", "32"); ("yellow", "33");
   ("blue", "34"); ("magenta", "35"); ("cyan", "36"); ("white", "37");
   ("default", "39")].

(** [{name: str(int(code) + 10) for name, code in items}], continued from
    the dictionary [acc]; [None] stands for the [ValueError] of [int]. *)
Fixpoint bg_comprehension (items : list (string * string))
    (acc : Py.dict string) : option (Py.dict string) :=
  match items with
  | [] => Some acc
  | (name, code) :: r =>
      match Py.int code with
      | Some n => bg_comprehension r (Py.setitem acc name (Py.str (n + 10)))
      | None => None
      end
  end.

(** The body of the [try] statement.  Its assignments to [typemsg] and
    [message] are the pair it returns; the inner handler keeps the
    centred [typemsg] when only [message.center] raises, as the
    assignment to [typemsg] is done by then. *)
Definition try_center (typemsg message : string) : M (string * string) :=
  try_except
    (out <- popen_stty_read ;;
     rc <- orraise ValueError (unpack2 (Py.split out)) ;;
     columns <- orraise ValueError (Py.int (snd rc)) ;;
     typemsg' <- orraise OverflowError (Py.center typemsg columns) ;;
     try_except
       (message' <- orraise OverflowError (Py.center message columns) ;;
        ret (typemsg', message'))
       (ret (typemsg', message)))
    (ret (typemsg, message)).

Definition ansi_reset : string := Py.ESC ++ "[0m".

(** The statements that choose the two colour codes: the comprehension
    that builds [bg_codes], then the two [get] with their fallbacks. *)
Definition select_codes (text_color bg_color : string) : M (string * string) :=
  bg_codes <- orraise ValueError (bg_comprehension color_codes []) ;;
  white <- orraise KeyError (Py.getitem color_codes "white") ;;
  let text_code := Py.get color_codes (Py.lower text_color) white in
  red <- orraise KeyError (Py.getitem bg_codes "red") ;;
  let bg_code := Py.get bg_codes (Py.lower bg_color) red in
  ret (text_code, bg_code).

Definition blinking_centered_text (typemsg message : string) (blinking : Z)
    (text_color bg_color : string) : M unit :=
  codes <- select_codes text_color bg_color ;;
  let text_code := fst codes in
  let bg_code := snd codes in
  tm <- try_center typemsg message ;;
  let ansi_start :=
    if Py.truthy blinking
    then Py.ESC ++ "[5;" ++ text_code ++ ";" ++ bg_code ++ "m"
    else Py.ESC ++ "[;" ++ text_code ++ ";" ++ bg_code ++ "m" in
  stdout_write (ansi_start ++ fst tm ++ ansi_reset ++ Py.NL) ;;;
  stdout_write (ansi_start ++ snd tm ++ ansi_reset ++ Py.NL).

(** The call with the defaults of the signature:
    [blinking=0, text_color='37', bg_color='41']. *)
Definition blinking_centered_text_defaults (typemsg message : string) : M unit :=
  blinking_centered_text typemsg message 0 "37" "41".

(** ** Writing to a stream that cannot encode every character

    [sys.stdout.write(s)] encodes [s] before anything is written, and
    raises [UnicodeEncodeError] when the encoding of the stream lacks a
    character of [s] (a non-ASCII character on an ASCII stream, a lone
    surrogate on a UTF-8 stream).  [enc] tells the characters the stream
    can encode; [stdout_write] above is the write to a stream that can
    encode them all. *)
Fixpoint encodes (enc : ascii -> bool) (s : string) : bool :=
  match s with
  | EmptyString => true
  | String c r => enc c && encodes enc r
  end.

Definition stdout_write_enc (enc : ascii -> bool) (s : string) : M unit :=
  fun w =>
    if encodes enc s then stdout_write s w
    else (Raise (mkExn UnicodeEncodeError []), w).

(** [blinking_centered_text] on such a stream: the same statements, the
    two writes being the last two, after the [try] statement. *)
Definition blinking_centered_text_enc (enc : ascii -> bool)
    (typemsg message : string) (blinking : Z) (text_color bg_color : string)
  : M unit :=
  codes <- select_codes text_color bg_color ;;
  let text_code := fst codes in
  let bg_code := snd codes in
  tm <- try_center typemsg message ;;
  let ansi_start :=
    if Py.truthy blinking
    then Py.ESC ++ "[5;" ++ text_code ++ ";" ++ bg_code ++ "m"
    else Py.ESC ++ "[;" ++ text_code ++ ";" ++ bg_code ++ "m" in
  stdout_write_enc enc (ansi_start ++ fst tm ++ ansi_reset ++ Py.NL) ;;;
  stdout_write_enc enc (ansi_start ++ snd tm ++ ansi_reset ++ Py.NL).

(** The characters of an ASCII stream. *)
Definition ascii_only (c : ascii) : bool := (nat_of_ascii c <? 128)%nat.

(** ** The constructors of the exception classes *)

(** [C(message)]: the instance gets [args = (message,)], then [__init__]
    runs; the instance is the value of the call when [__init__] returns. *)
Definition construct_with (init : string -> M unit) (c : pyclass)
    (message : string) : M exn :=
  init message ;;; ret (mkExn c [VStr message]).

(** Construction of an instance of a built-in exception class. *)
Definition new_builtin (c : pyclass) (message : string) : M exn :=
  construct_with (fun _ => ret tt) c message.

Definition CoaInfo_init (message : string) : M unit :=
  blinking_centered_text "PYCOA Info !" message 0 "white" "magenta" ;;;
  _ <- new_builtin Exception message ;;
  ret tt.

Definition CoaDBInfo_init (message : string) : M unit :=
  blinking_centered_text "PYCOA Info !" message 0 "white" "blue" ;;;
  _ <- new_builtin Exception message ;;
  ret tt.

Definition CoaWarning_init (message : string) : M unit :=
  blinking_centered_text "PYCOA Warning !" message 0 "white" "magenta" ;;;
  _ <- new_builtin Exception message ;;
  ret tt.

Definition CoaError_init (message : string) : M unit :=
  blinking_centered_text "PYCOA Error !" message 1 "white" "red" ;;;
  sys_exit 0.

(** [CoaError(message)], as the constructors of the subclasses call it. *)
Definition CoaError_new (message : string) : M exn :=
  construct_with CoaError_init CoaError message.

(** The [__init__] of a subclass that names a built-in second base:
    the banner, [Builtin(message)], [CoaError(message)]. *)
Definition init_banner_builtin_CoaError (builtin : pyclass)
    (message : string) : M unit :=
  blinking_centered_text "PYCOA Error !" message 1 "white" "red" ;;;
  _ <- new_builtin builtin message ;;
  _ <- CoaError_new message ;;
  ret tt.

(** The [__init__] of a subclass of [CoaError] alone: the banner, then
    [CoaError(message)]. *)
Definition init_banner_CoaError (message : string) : M unit :=
  blinking_centered_text "PYCOA Error !" message 1 "white" "red" ;;;
  _ <- CoaError_new message ;;
  ret tt.

Definition CoaNoData_init := init_banner_builtin_CoaError IndexError.
Definition CoaWhereError_init := init_banner_builtin_CoaError IndexError.
Definition CoaTypeError_init := init_banner_builtin_CoaError TypeError.
Definition CoaLookupError_init := init_banner_builtin_CoaError LookupError.
Definition CoaNotManagedError_init := init_banner_CoaError.
Definition CoaDbError_init := init_banner_CoaError.
Definition CoaConnectionError_init :=
  init_banner_builtin_CoaError ConnectionError.

(** [__init__] by class, for a call with the one argument [message]; the
    built-in exception classes have no effect of their own, [object] takes
    no argument and [UnicodeEncodeError] takes five. *)
Definition init_of (c : pyclass) : string -> M unit :=
  match c with
  | CoaInfo => CoaInfo_init
  | CoaDBInfo => CoaDBInfo_init
  | CoaWarning => CoaWarning_init
  | CoaError => CoaError_init
  | CoaNoData => CoaNoData_init
  | CoaWhereError => CoaWhereError_init
  | CoaTypeError => CoaTypeError_init
  | CoaLookupError => CoaLookupError_init
  | CoaNotManagedError => CoaNotManagedError_init
  | CoaDbError => CoaDbError_init
  | CoaConnectionError => CoaConnectionError_init
  | object =>
      fun _ => raise (mkExn TypeError [VStr "object() takes no arguments"])
  | UnicodeEncodeError =>
      fun _ =>
        raise (mkExn TypeError
                 [VStr "function takes exactly 5 arguments (1 given)"])
  | _ => fun _ => ret tt
  end.

(** [c(message)] *)
Definition construct (c : pyclass) (message : string) : M exn :=
  construct_with (init_of c) c message.

(** [raise c(message)] *)
Definition raise_new {A} (c : pyclass) (message : string) : M A :=
  e <- construct c message ;; raise e.

(** What becomes of the process when a call made at top level ends:
    it goes on after a value, an uncaught [SystemExit] ends it with the
    exit status, any other uncaught exception ends it with a traceback. *)
Inductive fate : Type :=
  | Continues
  | Exits (status : Z)
  | Traceback (e : exn).

(** The exit status of a [SystemExit] with these [args]: the integer it
    carries, 0 when it carries nothing, 1 when it carries a message. *)
Definition exit_status (args : list pyval) : Z :=
  match args with
  | [] => 0
  | [VInt z] => z
  | _ => 1
  end.

Definition fate_of {A} (o : outcome A) : fate :=
  match o with
  | Return _ => Continues
  | Raise e =>
      if issubclass (exn_class e) SystemExit then Exits (exit_status (exn_args e))
      else Traceback e
  end.

(** ** Vocabulary for the statements about the banner *)

(** The value of [bg_codes] after the comprehension. *)
Definition bg_codes : Py.dict string :=
  [("black", "40"); ("red", "41"); ("green", "42"); ("yellow", "43");
   ("blue", "44"); ("magenta", "45"); ("cyan", "46"); ("white", "47");
   ("default", "49")].

(** The codes selected for a text colour and a background colour. *)
Definition text_code_of (text_color : string) : string :=
  Py.get color_codes (Py.lower text_color) "37".

Definition bg_code_of (bg_color : string) : string :=
  Py.get bg_codes (Py.lower bg_color) "41".

(** The start sequence, [ESC [ 5 ; text ; bg m] or [ESC [ ; text ; bg m]. *)
Definition ansi_start (blinking : bool) (text_code bg_code : string) : string :=
  if blinking
  then Py.ESC ++ "[5;" ++ text_code ++ ";" ++ bg_code ++ "m"
  else Py.ESC ++ "[;" ++ text_code ++ ";" ++ bg_code ++ "m".

(** One written line: start sequence, body, reset sequence, newline. *)
Definition banner_line (start body : string) : string :=
  start ++ body ++ ansi_reset ++ Py.NL.

(** The column count the [try] body reads from an answer of [stty size]:
    none when the call raised, when the answer is not two words, or when
    the second word is not an integer. *)
Definition columns_of (answer : option string) : option Z :=
  match answer with
  | None => None
  | Some out =>
      match unpack2 (Py.split out) with
      | Some rc => Py.int (snd rc)
      | None => None
      end
  end.

(** [typemsg] and [message] as they stand after the [try] statement. *)
Definition after_try (answer : option string) (typemsg message : string)
  : string * string :=
  match columns_of answer with
  | None => (typemsg, message)
  | Some columns =>
      match Py.center typemsg columns with
      | None => (typemsg, message)
      | Some typemsg' =>
          match Py.center message columns with
          | None => (typemsg', message)
          | Some message' => (typemsg', message')
          end
      end
  end.

(** The world after one more read of the terminal and these writes. *)
Definition after_banner (w : World) (lines : list string) : World :=
  mkWorld (stty w) (S (popens w)) (stdout w ++ lines).

(** The two lines written for a banner in world [w]. *)
Definition banner (w : World) (typemsg message : string) (blinking : Z)
    (text_color bg_color : string) : list string :=
  let start :=
    ansi_start (Py.truthy blinking) (text_code_of text_color)
      (bg_code_of bg_color) in
  let tm := after_try (stty w (popens w)) typemsg message in
  [banner_line start (fst tm); banner_line start (snd tm)].

(** The banners of the four kinds of message. *)
Definition info_banner (w : World) (message : string) : list string :=
  banner w "PYCOA Info !" message 0 "white" "magenta".

Definition dbinfo_banner (w : World) (message : string) : list string :=
  banner w "PYCOA Info !" message 0 "white" "blue".

Definition warning_banner (w : World) (message : string) : list string :=
  banner w "PYCOA Warning !" message 0 "white" "magenta".

Definition error_banner (w : World) (message : string) : list string :=
  banner w "PYCOA Error !" message 1 "white" "red".

(** [SystemExit(0)], what [sys.exit(0)] raises. *)
Definition exit0 : exn := mkExn SystemExit [VInt 0].

(** The world a constructor of a subclass of [CoaError] leaves: the banner
    of the subclass, then the banner of the [CoaError] it constructs. *)
Definition after_two_banners (w : World) (message : string) : World :=
  let w1 := after_banner w (error_banner w message) in
  after_banner w1 (error_banner w1 message).

(** [s'] is [s] between two runs of spaces that fill it up to [width]
    (nothing to fill when [s] is that long already), the two runs equal
    or one apart. *)
Definition padded (s : string) (width : Z) (s' : string) : Prop :=
  exists l r : Z,
    s' = Py.spaces l ++ s ++ Py.spaces r
    /\ (0 <= l)%Z /\ (0 <= r)%Z
    /\ (l + r = Z.max 0 (width - Py.len s))%Z
    /\ (-1 <= l - r <= 1)%Z.

(** Two terminals: one 24 rows by 80 columns, one that answers nothing
    (as when the standard input is not a terminal). *)
Definition tty80 : World :=
  mkWorld (fun _ => Some ("24 80" ++ Py.NL)) 0 [].

Definition notty : World := mkWorld (fun _ => Some "") 0 [].

(** ** The geolocation lookups

    The module [pyvoa.geo] (classes [GeoManager] and [GeoRegion], used by
    the notebook [GeoByExamples]) is not in the tree; its lookups are
    modelled here from the specification's data model: a reference table
    from country identifiers to a canonical record, and region membership
    lists, both built once and read afterwards. *)
Module Geo.

(** Modelled from the spec: the canonical country record of
    [pyvoa.geo], "the single authoritative identifier set (name, ISO2,
    ISO3, numeric code) a dataset name resolves to", with the name
    variants the reference table lists for it. *)
Record country : Type := mkCountry {
  name : string;
  iso2 : string;
  iso3 : string;
  num : string;
  variants : list string
}.

(** Modelled from the spec: the standard of [pyvoa.geo], "the
    user-selected output representation (e.g., name vs. ISO3)". *)
Inductive standard : Type := StdName | StdIso2 | StdIso3 | StdNum.

(** Modelled from the spec: the output of [pyvoa.geo] for a resolved
    record, its form in the selected standard. *)
Definition render (std : standard) (c : country) : string :=
  match std with
  | StdName => name c
  | StdIso2 => iso2 c
  | StdIso3 => iso3 c
  | StdNum => num c
  end.

(** Modelled from the spec: the identifiers the reference table of
    [pyvoa.geo] maps to a record: its name, its codes, its variants. *)
Definition identifiers (c : country) : list string :=
  name c :: iso2 c :: iso3 c :: num c :: variants c.

(** Modelled from the spec: the normalisation of an input of
    [pyvoa.geo] before lookup, which makes resolution independent of the
    casing of the input. *)
Definition normalize (s : string) : string := Py.lower s.

(** Modelled from the spec: the index [pyvoa.geo] builds at
    initialisation ("build index, answer queries"), from every
    normalised identifier to its record, in table order. *)
Definition build_index (table : list country) : Py.dict country :=
  flat_map (fun c => map (fun k => (normalize k, c)) (identifiers c)) table.

(** Modelled from the spec: the read-only state of a [GeoManager] or
    [GeoRegion] of [pyvoa.geo]: the reference table, its index, and the
    region membership lists (region name to member country codes). *)
Record geo : Type := mkGeo {
  countries : list country;
  index : Py.dict country;
  regions : Py.dict (list string)
}.

(** Modelled from the spec: the initialisation of [pyvoa.geo], which
    populates the lookup structures once. *)
Definition init (table : list country) (regs : Py.dict (list string)) : geo :=
  mkGeo table (build_index table) regs.

(** Modelled from the spec: name resolution of [pyvoa.geo], one lookup of
    the normalised input in the index. *)
Definition resolve (g : geo) (s : string) : option country :=
  Py.getitem (index g) (normalize s).

(** A name is known when it is, up to normalisation, an identifier of a
    country of the table. *)
Definition known (g : geo) (s : string) : Prop :=
  exists c k, In c (countries g) /\ In k (identifiers c)
              /\ normalize k = normalize s.

(** No identifier is shared, up to normalisation, by two records. *)
Definition unambiguous (table : list country) : Prop :=
  forall c1 c2 k1 k2,
    In c1 table -> In c2 table ->
    In k1 (identifiers c1) -> In k2 (identifiers c2) ->
    normalize k1 = normalize k2 -> c1 = c2.

Section Lookups.

(** The text of the error message for an input, which the
    specification leaves open. *)
Variable message_for : string -> string.

(** Modelled from the spec: [GeoRegion.get_countries_from_region] of
    [pyvoa.geo], the set of the member country codes of a named
    region, as a list without repetition. *)
Definition get_countries_from_region (g : geo) (region : string)
  : M (list string) :=
  match Py.getitem (regions g) region with
  | Some members => ret (nodup string_dec members)
  | None => raise_new CoaWhereError (message_for region)
  end.

(** Modelled from the spec: the member codes of a region through
    [pyvoa.geo], each resolved and put in the standard. *)
Fixpoint standards (g : geo) (std : standard) (codes : list string)
  : M (list string) :=
  match codes with
  | [] => ret []
  | k :: r =>
      match resolve g k with
      | Some c => l <- standards g std r ;; ret (render std c :: l)
      | None => raise_new CoaWhereError (message_for k)
      end
  end.

(** Modelled from the spec: one name through [GeoManager.to_standard]
    of [pyvoa.geo]: a known country gives its record in the standard;
    otherwise, with [interpret_region], the members of the region of
    that name; otherwise [raise CoaWhereError(...)]. *)
Definition to_standard (g : geo) (std : standard) (s : string)
    (interpret_region : bool) : M (list string) :=
  match resolve g s with
  | Some c => ret [render std c]
  | None =>
      if interpret_region then
        members <- get_countries_from_region g s ;;
        standards g std members
      else raise_new CoaWhereError (message_for s)
  end.

End Lookups.

End Geo.

(** A small reference table and a region list, to run the lookups on. *)
Definition sample_countries : list Geo.country :=
  [Geo.mkCountry "France" "FR" "FRA" "250" ["French Republic"];
   Geo.mkCountry "Germany" "DE" "DEU" "276" ["Deutschland"];
   Geo.mkCountry "United Kingdom" "GB" "GBR" "826" ["England"; "UK"]].

Definition sample_regions : Py.dict (list string) :=
  [("European Union", ["FRA"; "DEU"; "FRA"]);
   ("Western Europe", ["FRA"; "DEU"; "GBR"])].

Definition sample_geo : Geo.geo := Geo.init sample_countries sample_regions.

(** ** Vocabulary for the further properties *)

(** [CoaError] and the seven classes derived from it. *)
Definition CoaError_family : list pyclass :=
  [CoaError; CoaNoData; CoaWhereError; CoaTypeError; CoaLookupError;
   CoaNotManagedError; CoaDbError; CoaConnectionError].

(** The seven classes derived from [CoaError]. *)
Definition CoaError_subclasses : list pyclass :=
  [CoaNoData; CoaWhereError; CoaTypeError; CoaLookupError;
   CoaNotManagedError; CoaDbError; CoaConnectionError].

(** How many banners the constructor of a class writes. *)
Definition banners_of (c : pyclass) : nat :=
  match c with
  | CoaInfo | CoaDBInfo | CoaWarning | CoaError => 1
  | CoaNoData | CoaWhereError | CoaTypeError | CoaLookupError
  | CoaNotManagedError | CoaDbError | CoaConnectionError => 2
  | _ => 0
  end.

(** What [stty size] prints on a terminal of [rows] by [columns]: the two
    numbers in decimal, a space between them, a newline after. *)
Definition stty_answer (rows columns : Z) : string :=
  Py.str rows ++ " " ++ Py.str columns ++ Py.NL.

(** The strings made of decimal digits only, and those free of spaces. *)
Fixpoint digits_only (s : string) : bool :=
  match s with
  | EmptyString => true
  | String c r =>
      match Py.digit_of c with Some _ => digits_only r | None => false end
  end.

Fixpoint no_space (s : string) : bool :=
  match s with
  | EmptyString => true
  | String c r => negb (Py.isspace c) && no_space r
  end.

(** * Properties of [error.py] *)

(** ** The primitives on small inputs *)

Example split_stty : Py.split ("24 80" ++ Py.NL) = ["24"; "80"].
Proof. reflexivity. Qed.

Example int_examples :
  Py.int "80" = Some 80%Z /\ Py.int "1_000" = Some 1000%Z
  /\ Py.int "-12" = Some (-12)%Z /\ Py.int "1__0" = None
  /\ Py.int "" = None /\ Py.int "_1" = None /\ Py.int "1_" = None
  /\ Py.int "8o" = None.
Proof. repeat split; reflexivity. Qed.

Example str_examples :
  Py.str 40 = "40" /\ Py.str 0 = "0" /\ Py.str (-3) = "-3".
Proof. repeat split; reflexivity. Qed.

Example center_examples :
  Py.center "abc" 6 = Some " abc  " /\ Py.center "abc" 7 = Some "  abc  "
  /\ Py.center "ab" 5 = Some "  ab " /\ Py.center "ab" 1 = Some "ab"
  /\ Py.center "ab" (-4) = Some "ab" /\ Py.center "ab" (2 ^ 63) = None.
Proof. repeat split; reflexivity. Qed.

Example lower_example : Py.lower "WhIte_9" = "white_9".
Proof. reflexivity. Qed.

Example columns_examples :
  columns_of (Some ("24 80" ++ Py.NL)) = Some 80%Z
  /\ columns_of (Some "") = None /\ columns_of None = None
  /\ columns_of (Some "24 80 1") = None /\ columns_of (Some "24 wide") = None.
Proof. repeat split; reflexivity. Qed.

(** With the defaults of the signature the codes are 37 on 41, through
    the fallbacks: ['37'] and ['41'] are not names of the table. *)
Example default_codes : text_code_of "37" = "37" /\ bg_code_of "41" = "41".
Proof. split; reflexivity. Qed.

(** ** The run of [blinking_centered_text] *)

Lemma bg_codes_value : bg_comprehension color_codes [] = Some bg_codes.
Proof. reflexivity. Qed.

Lemma select_codes_run (text_color bg_color : string) (w : World) :
  select_codes text_color bg_color w
  = (Return (text_code_of text_color, bg_code_of bg_color), w).
Proof.
  unfold select_codes, bind. rewrite bg_codes_value. reflexivity.
Qed.

Lemma try_center_run (typemsg message : string) (w : World) :
  try_center typemsg message w
  = (Return (after_try (stty w (popens w)) typemsg message),
     mkWorld (stty w) (S (popens w)) (stdout w)).
Proof.
  unfold try_center, try_except, bind, popen_stty_read, after_try, columns_of.
  destruct (stty w (popens w)) as [out|]; [|reflexivity].
  destruct (unpack2 (Py.split out)) as [rc|]; [|reflexivity]. cbn.
  destruct (Py.int (snd rc)) as [columns|]; [|reflexivity]. cbn.
  destruct (Py.center typemsg columns) as [t'|]; [|reflexivity]. cbn.
  destruct (Py.center message columns) as [m'|]; reflexivity.
Qed.

Lemma blinking_centered_text_run (typemsg message : string) (blinking : Z)
    (text_color bg_color : string) (w : World) :
  blinking_centered_text typemsg message blinking text_color bg_color w
  = (Return tt,
     after_banner w (banner w typemsg message blinking text_color bg_color)).
Proof.
  unfold blinking_centered_text, bind.
  rewrite select_codes_run, try_center_run.
  unfold stdout_write, after_banner, banner, banner_line, ansi_start. cbn.
  rewrite <- app_assoc.
  destruct (Py.truthy blinking); reflexivity.
Qed.

(** ** The class hierarchy *)

Lemma pyclass_eqb_eq (c d : pyclass) : pyclass_eqb c d = true <-> c = d.
Proof.
  split.
  - destruct c, d; simpl; intro H; try reflexivity; discriminate H.
  - intros <-. destruct c; reflexivity.
Qed.

Lemma issubclass_base (c b d : pyclass) :
  In b (bases c) -> issubclass b d = true -> issubclass c d = true.
Proof.
  destruct c; simpl; intro Hb;
    repeat (destruct Hb as [<- | Hb]; [|]); try contradiction;
    destruct d; intro H; try reflexivity; discriminate H.
Qed.

Lemma issubclass_upto_sound (n : nat) (c d : pyclass) :
  issubclass_upto n c d = true -> subclass c d.
Proof.
  revert c. induction n as [|n IH]; intros c H; simpl in H;
    apply orb_true_iff in H; destruct H as [H | H].
  - apply pyclass_eqb_eq in H. subst. constructor.
  - discriminate H.
  - apply pyclass_eqb_eq in H. subst. constructor.
  - apply existsb_exists in H. destruct H as [b [Hb Hs]].
    eapply subclass_base; eauto.
Qed.

(** [issubclass] computes the closure of [bases]: six steps are enough. *)
Lemma issubclass_spec (c d : pyclass) : issubclass c d = true <-> subclass c d.
Proof.
  split.
  - apply issubclass_upto_sound.
  - induction 1 as [c | c b d Hb _ IH].
    + destruct c; reflexivity.
    + eapply issubclass_base; eauto.
Qed.

(** An [except c] clause takes an exception when its class is a subclass
    of [c]. *)
Lemma try_except_cls_raise {A} (c : pyclass) (e : exn) (h : M A) (w : World) :
  issubclass c BaseException = true ->
  try_except_cls c (raise e) h w
  = if issubclass (exn_class e) c then h w else (Raise e, w).
Proof. intro Hc. unfold try_except_cls, raise. now rewrite Hc. Qed.

(** C8. [CoaInfo], [CoaDBInfo] and [CoaWarning] have [Exception] as their
    only base and are not subclasses of [CoaError]; the subclasses of
    [CoaError] are [CoaError] and its seven subclasses and no other class,
    so an [except CoaError] clause takes an exception of those eight
    classes and lets every other exception through. *)
Theorem except_CoaError_catches :
  bases CoaInfo = [Exception] /\ bases CoaDBInfo = [Exception]
  /\ bases CoaWarning = [Exception]
  /\ ~ subclass CoaInfo CoaError /\ ~ subclass CoaDBInfo CoaError
  /\ ~ subclass CoaWarning CoaError
  /\ (forall c : pyclass,
        subclass c CoaError <->
        In c [CoaError; CoaNoData; CoaWhereError; CoaTypeError;
              CoaLookupError; CoaNotManagedError; CoaDbError;
              CoaConnectionError])
  /\ (forall (A : Type) (e : exn) (h : M A) (w : World),
        try_except_cls CoaError (raise e) h w
        = if existsb (pyclass_eqb (exn_class e))
               [CoaError; CoaNoData; CoaWhereError; CoaTypeError;
                CoaLookupError; CoaNotManagedError; CoaDbError;
                CoaConnectionError]
          then h w else (Raise e, w)).
Proof.
  assert (Hn : forall c, issubclass c CoaError = false -> ~ subclass c CoaError).
  { intros c Hc Hs. apply issubclass_spec in Hs. congruence. }
  repeat split; try reflexivity; try (apply Hn; reflexivity).
  - intro Hs. apply issubclass_spec in Hs.
    destruct c; try discriminate Hs; simpl; tauto.
  - intro Hin. apply issubclass_spec. simpl in Hin.
    repeat (destruct Hin as [<- | Hin]; [reflexivity|]). contradiction.
  - intros A e h w. rewrite try_except_cls_raise by reflexivity.
    destruct e as [c args]. destruct c; reflexivity.
Qed.

(** C3. The five classes of the documented error categories are five
    different classes of the module, each with its own docstring for its
    category, and each a subclass of [CoaError] other than [CoaError]. *)
Theorem error_categories_have_classes :
  NoDup [CoaWhereError; CoaDbError; CoaLookupError; CoaNoData;
         CoaNotManagedError]
  /\ incl [CoaWhereError; CoaDbError; CoaLookupError; CoaNoData;
           CoaNotManagedError] module_classes
  /\ Forall (fun c => subclass c CoaError /\ c <> CoaError
                      /\ subclass c Exception)
       [CoaWhereError; CoaDbError; CoaLookupError; CoaNoData;
        CoaNotManagedError]
  /\ class_doc CoaWhereError = Some "Exception raised for location errors."
  /\ class_doc CoaDbError = Some "Exception raised for database errors."
  /\ class_doc CoaLookupError = Some "Exception raised for type lookup errors."
  /\ class_doc CoaNoData
     = Some "Exception raised when there is no data to plot or to manage (invalid cut)"
  /\ class_doc CoaNotManagedError
     = Some "Exception raised when the error is unknown and not managed.".
Proof.
  split; [|split; [|split]].
  - repeat constructor; simpl; intuition discriminate.
  - intros c Hc. simpl in Hc. simpl.
    repeat (destruct Hc as [<- | Hc]; [tauto|]). contradiction.
  - repeat constructor; try (apply issubclass_spec; reflexivity);
      discriminate.
  - repeat split; reflexivity.
Qed.

(** ** The constructors *)

Ltac run_banner :=
  unfold bind; rewrite blinking_centered_text_run; try reflexivity.

Lemma CoaInfo_init_run (message : string) (w : World) :
  CoaInfo_init message w = (Return tt, after_banner w (info_banner w message)).
Proof. unfold CoaInfo_init. run_banner. Qed.

Lemma CoaDBInfo_init_run (message : string) (w : World) :
  CoaDBInfo_init message w
  = (Return tt, after_banner w (dbinfo_banner w message)).
Proof. unfold CoaDBInfo_init. run_banner. Qed.

Lemma CoaWarning_init_run (message : string) (w : World) :
  CoaWarning_init message w
  = (Return tt, after_banner w (warning_banner w message)).
Proof. unfold CoaWarning_init. run_banner. Qed.

Lemma CoaError_init_run (message : string) (w : World) :
  CoaError_init message w
  = (Raise exit0, after_banner w (error_banner w message)).
Proof. unfold CoaError_init. run_banner. Qed.

Lemma CoaError_new_run (message : string) (w : World) :
  CoaError_new message w
  = (Raise exit0, after_banner w (error_banner w message)).
Proof.
  unfold CoaError_new, construct_with, bind.
  rewrite CoaError_init_run. reflexivity.
Qed.

Lemma init_banner_builtin_CoaError_run (b : pyclass) (message : string)
    (w : World) :
  init_banner_builtin_CoaError b message w
  = (Raise exit0, after_two_banners w message).
Proof.
  unfold init_banner_builtin_CoaError, bind.
  rewrite blinking_centered_text_run. cbn.
  rewrite CoaError_new_run. reflexivity.
Qed.

Lemma init_banner_CoaError_run (message : string) (w : World) :
  init_banner_CoaError message w = (Raise exit0, after_two_banners w message).
Proof.
  unfold init_banner_CoaError, bind.
  rewrite blinking_centered_text_run, CoaError_new_run. reflexivity.
Qed.

(** Every subclass of [CoaError] ends its [__init__] in [sys.exit(0)]. *)
Lemma subclass_init_run (c : pyclass) (message : string) (w : World) :
  In c [CoaNoData; CoaWhereError; CoaTypeError; CoaLookupError;
        CoaNotManagedError; CoaDbError; CoaConnectionError] ->
  init_of c message w = (Raise exit0, after_two_banners w message).
Proof.
  simpl. intro H.
  repeat (destruct H as [<- | H];
          [first [apply init_banner_builtin_CoaError_run
                 | apply init_banner_CoaError_run]|]).
  contradiction.
Qed.

Lemma stdout_after_two_banners (w : World) (message : string) :
  stdout (after_two_banners w message)
  = (stdout w ++ error_banner w message
      ++ error_banner (after_banner w (error_banner w message)) message)%list.
Proof. unfold after_two_banners, after_banner. cbn. now rewrite <- app_assoc. Qed.

(** C1. For every message, constructing [CoaInfo], [CoaDBInfo] or
    [CoaWarning] writes its banner and returns the instance to the caller,
    so execution continues; constructing [CoaError] writes its banner and
    then raises the [SystemExit] of [sys.exit(0)], which ends the
    process. *)
Theorem info_warning_return_error_exits (message : string) (w : World) :
  construct CoaInfo message w
  = (Return (mkExn CoaInfo [VStr message]),
     after_banner w (info_banner w message))
  /\ construct CoaDBInfo message w
     = (Return (mkExn CoaDBInfo [VStr message]),
        after_banner w (dbinfo_banner w message))
  /\ construct CoaWarning message w
     = (Return (mkExn CoaWarning [VStr message]),
        after_banner w (warning_banner w message))
  /\ construct CoaError message w
     = (Raise (mkExn SystemExit [VInt 0]),
        after_banner w (error_banner w message))
  /\ fate_of (fst (construct CoaInfo message w)) = Continues
  /\ fate_of (fst (construct CoaDBInfo message w)) = Continues
  /\ fate_of (fst (construct CoaWarning message w)) = Continues
  /\ fate_of (fst (construct CoaError message w)) = Exits 0.
Proof.
  unfold construct, construct_with, bind. cbn [init_of].
  rewrite CoaInfo_init_run, CoaDBInfo_init_run, CoaWarning_init_run,
    CoaError_init_run.
  repeat split; reflexivity.
Qed.

(** [raise CoaWhereError("nowhere")] does not end with a [CoaWhereError]
    raised to the caller. *)
Lemma raise_CoaWhereError_not_propagated :
  ~ (exists (e : exn) (w' : World),
       @raise_new unit CoaWhereError "nowhere" tty80 = (Raise e, w')
       /\ exn_class e = CoaWhereError).
Proof.
  intros [e [w' [H Hc]]].
  unfold raise_new, construct, construct_with, bind in H.
  rewrite subclass_init_run in H by (simpl; tauto).
  inversion H; subst e. discriminate Hc.
Qed.

(** C2. What the code does where the claim has the typed exception
    propagate: for each of [CoaWhereError], [CoaDbError],
    [CoaLookupError], [CoaNoData] and [CoaNotManagedError], and every
    message, [raise c(message)] writes the error banner and then ends in
    the [SystemExit] of the [sys.exit(0)] of the [CoaError] constructor
    that the constructor of [c] calls: the process exits with status 0,
    and no handler for [c] or for [CoaError] takes the exception. *)
Theorem typed_errors_exit (A : Type) (c : pyclass) (message : string)
    (w : World) :
  In c [CoaWhereError; CoaDbError; CoaLookupError; CoaNoData;
        CoaNotManagedError] ->
  exists (w' : World) (more : list string),
    @raise_new A c message w = (Raise (mkExn SystemExit [VInt 0]), w')
    /\ stdout w' = (stdout w ++ error_banner w message ++ more)%list
    /\ fate_of (fst (@raise_new A c message w)) = Exits 0
    /\ (forall h : M A,
          try_except_cls c (raise_new c message) h w
          = (Raise (mkExn SystemExit [VInt 0]), w'))
    /\ (forall h : M A,
          try_except_cls CoaError (raise_new c message) h w
          = (Raise (mkExn SystemExit [VInt 0]), w')).
Proof.
  intro Hc.
  assert (Hin : In c [CoaNoData; CoaWhereError; CoaTypeError; CoaLookupError;
                      CoaNotManagedError; CoaDbError; CoaConnectionError]).
  { simpl in Hc |- *. tauto. }
  assert (Hrun : @raise_new A c message w
                 = (Raise exit0, after_two_banners w message)).
  { unfold raise_new, construct, construct_with, bind.
    rewrite subclass_init_run by exact Hin. reflexivity. }
  exists (after_two_banners w message),
    (error_banner (after_banner w (error_banner w message)) message).
  split; [exact Hrun|]. split; [apply stdout_after_two_banners|].
  split; [rewrite Hrun; reflexivity|].
  split; intro h; unfold try_except_cls; rewrite Hrun; cbn [exn_class exit0].
  - simpl in Hc.
    repeat (destruct Hc as [<- | Hc]; [reflexivity|]). contradiction.
  - reflexivity.
Qed.

Lemma typed_errors_exit_witness :
  exists (w' : World) (more : list string),
    @raise_new unit CoaWhereError "nowhere" tty80
    = (Raise (mkExn SystemExit [VInt 0]), w')
    /\ stdout w' = (stdout tty80 ++ error_banner tty80 "nowhere" ++ more)%list
    /\ fate_of (fst (@raise_new unit CoaWhereError "nowhere" tty80)) = Exits 0
    /\ (forall h : M unit,
          try_except_cls CoaWhereError (raise_new CoaWhereError "nowhere") h tty80
          = (Raise (mkExn SystemExit [VInt 0]), w'))
    /\ (forall h : M unit,
          try_except_cls CoaError (raise_new CoaWhereError "nowhere") h tty80
          = (Raise (mkExn SystemExit [VInt 0]), w')).
Proof.
  apply (typed_errors_exit unit CoaWhereError "nowhere" tty80).
  simpl. left. reflexivity.
Defined.

(** ** The banner *)

Lemma append_empty_r (s : string) : s ++ "" = s.
Proof. induction s as [|c s IH]; simpl; [reflexivity | now rewrite IH]. Qed.

(** The bit CPython adds to the left margin is 0 or 1, and is 0 when the
    margin is even. *)
Lemma center_rounding_bit (marg width : Z) :
  (0 <= Z.land (Z.land marg width) 1 <= marg mod 2)%Z.
Proof.
  change 1%Z with (Z.ones 1) at 1 2.
  rewrite Z.land_ones by lia. change (2 ^ 1)%Z with 2%Z.
  rewrite !Zmod_odd, <- !Z.bit0_odd, Z.land_spec.
  destruct (Z.testbit marg 0), (Z.testbit width 0); simpl; lia.
Qed.

(** [center] pads on both sides, for every width that fits [Py_ssize_t]. *)
Lemma center_padded (s : string) (width : Z) :
  (- Py.SSIZE_MAX - 1 <= width <= Py.SSIZE_MAX)%Z ->
  exists s', Py.center s width = Some s' /\ padded s width s'.
Proof.
  intros [Hlo Hhi]. unfold Py.center.
  destruct (width <? - Py.SSIZE_MAX - 1)%Z eqn:E1; [apply Z.ltb_lt in E1; lia|].
  destruct (Py.SSIZE_MAX <? width)%Z eqn:E2; [apply Z.ltb_lt in E2; lia|].
  cbn [orb].
  destruct (width <=? Py.len s)%Z eqn:E3.
  - apply Z.leb_le in E3. exists s. split; [reflexivity|].
    exists 0%Z, 0%Z. cbn. rewrite append_empty_r.
    repeat split; try lia.
  - apply Z.leb_gt in E3. eexists. split; [reflexivity|].
    set (marg := (width - Py.len s)%Z).
    pose proof (center_rounding_bit marg width) as Hb.
    pose proof (Z.div_mod marg 2 ltac:(lia)) as Hd.
    pose proof (Z.mod_pos_bound marg 2 ltac:(lia)) as Hm.
    exists (marg / 2 + Z.land (Z.land marg width) 1)%Z,
      (marg - (marg / 2 + Z.land (Z.land marg width) 1))%Z.
    repeat split; lia.
Qed.

(** C4. For all strings, [blinking_centered_text] returns after writing
    exactly two strings to [sys.stdout], the line of the type message and
    then the line of the message: each is the start sequence
    [ESC [ 5 ; text ; bg m] (blinking) or [ESC [ ; text ; bg m] (not
    blinking) with the selected codes, the text, the reset sequence
    [ESC [ 0 m], and a newline; and when [stty size] gives a column count
    (one that fits [Py_ssize_t]), the two texts are the type message and
    the message centred in that many columns. *)
Theorem blinking_centered_text_two_lines (typemsg message : string)
    (blinking : Z) (text_color bg_color : string) (w : World) :
  exists (t' m' : string) (w' : World),
    blinking_centered_text typemsg message blinking text_color bg_color w
    = (Return tt, w')
    /\ stdout w'
       = List.app (stdout w)
           [ansi_start (Py.truthy blinking) (text_code_of text_color)
               (bg_code_of bg_color)
             ++ t' ++ (Py.ESC ++ "[0m") ++ Py.NL;
            ansi_start (Py.truthy blinking) (text_code_of text_color)
               (bg_code_of bg_color)
             ++ m' ++ (Py.ESC ++ "[0m") ++ Py.NL]
    /\ ansi_start (Py.truthy blinking) (text_code_of text_color)
         (bg_code_of bg_color)
       = Py.ESC ++ (if Py.truthy blinking then "[5;" else "[;")
           ++ text_code_of text_color ++ ";" ++ bg_code_of bg_color ++ "m"
    /\ forall columns : Z,
         columns_of (stty w (popens w)) = Some columns ->
         (- Py.SSIZE_MAX - 1 <= columns <= Py.SSIZE_MAX)%Z ->
         Py.center typemsg columns = Some t' /\ padded typemsg columns t'
         /\ Py.center message columns = Some m' /\ padded message columns m'.
Proof.
  exists (fst (after_try (stty w (popens w)) typemsg message)),
    (snd (after_try (stty w (popens w)) typemsg message)).
  eexists. split; [apply blinking_centered_text_run|].
  split; [reflexivity|]. split.
  - unfold ansi_start. destruct (Py.truthy blinking); reflexivity.
  - intros columns Hcols Hfit.
    destruct (center_padded typemsg columns Hfit) as [t' [Ht Hpt]].
    destruct (center_padded message columns Hfit) as [m' [Hm Hpm]].
    unfold after_try. rewrite Hcols, Ht, Hm. cbn [fst snd]. auto.
Qed.

Lemma blinking_centered_text_two_lines_witness :
  exists (t' m' : string) (w' : World),
    blinking_centered_text "PYCOA Error !" "nowhere" 1 "white" "red" tty80
    = (Return tt, w')
    /\ stdout w'
       = [ansi_start true "37" "41" ++ t' ++ (Py.ESC ++ "[0m") ++ Py.NL;
          ansi_start true "37" "41" ++ m' ++ (Py.ESC ++ "[0m") ++ Py.NL]
    /\ Py.center "PYCOA Error !" 80 = Some t' /\ padded "PYCOA Error !" 80 t'
    /\ Py.center "nowhere" 80 = Some m' /\ padded "nowhere" 80 m'.
Proof.
  destruct (blinking_centered_text_two_lines
              "PYCOA Error !" "nowhere" 1 "white" "red" tty80)
    as [t' [m' [w' [Hrun [Hout [_ Hcentred]]]]]].
  exists t', m', w'. split; [exact Hrun|]. split; [exact Hout|].
  apply (Hcentred 80%Z); [reflexivity | unfold Py.SSIZE_MAX; lia].
Defined.

(** *** On a stream that cannot encode every character *)

Lemma encodes_all (s : string) : encodes (fun _ => true) s = true.
Proof. induction s as [|c s IH]; [reflexivity | exact IH]. Qed.

Lemma stdout_write_enc_all (s : string) (w : World) :
  stdout_write_enc (fun _ => true) s w = stdout_write s w.
Proof. unfold stdout_write_enc. now rewrite encodes_all. Qed.

(** The run on a stream: the first line that the stream cannot encode
    raises, after the lines before it are written. *)
Lemma blinking_centered_text_enc_run (enc : ascii -> bool)
    (typemsg message : string) (blinking : Z) (text_color bg_color : string)
    (w : World) :
  blinking_centered_text_enc enc typemsg message blinking text_color bg_color w
  = match banner w typemsg message blinking text_color bg_color with
    | [l1; l2] =>
        if encodes enc l1 then
          if encodes enc l2 then (Return tt, after_banner w [l1; l2])
          else (Raise (mkExn UnicodeEncodeError []), after_banner w [l1])
        else (Raise (mkExn UnicodeEncodeError []), after_banner w [])
    | _ => (Return tt, w)
    end.
Proof.
  unfold blinking_centered_text_enc, bind.
  rewrite select_codes_run, try_center_run.
  unfold stdout_write_enc, stdout_write, after_banner, banner, banner_line,
    ansi_start.
  cbn [fst snd stty popens stdout].
  destruct (Py.truthy blinking);
    match goal with
    | |- context [encodes enc ?l] => destruct (encodes enc l); [|now rewrite app_nil_r]
    end;
    cbn [stty popens stdout];
    match goal with
    | |- context [encodes enc ?l] => destruct (encodes enc l)
    end;
    cbn [stty popens stdout]; rewrite <- ?app_assoc; reflexivity.
Qed.

(** C9, as stated, fails twice.  On an ASCII stream a message of
    one character of code 233 (e acute) makes the second [sys.stdout.write] raise
    [UnicodeEncodeError] out of the function, the first line being
    written; and a colour name that is not in the table is treated as
    ['white'] for the text and ['red'] for the background, not as the
    entry ['default'] of the table. *)
Lemma blinking_centered_text_claim_fails :
  blinking_centered_text_enc ascii_only "T" (String "233"%char "") 0
    "white" "red" notty
  = (Raise (mkExn UnicodeEncodeError []),
     after_banner notty [banner_line (ansi_start false "37" "41") "T"])
  /\ Py.getitem color_codes (Py.lower "purple") = None
  /\ Py.getitem color_codes "default" = Some "39"
  /\ stdout (snd (blinking_centered_text "T" "m" 0 "purple" "purple" notty))
     = stdout (snd (blinking_centered_text "T" "m" 0 "white" "red" notty))
  /\ stdout (snd (blinking_centered_text "T" "m" 0 "purple" "purple" notty))
     <> stdout (snd (blinking_centered_text "T" "m" 0 "default" "default" notty)).
Proof.
  split; [rewrite blinking_centered_text_enc_run; reflexivity|].
  repeat split; try reflexivity.
  rewrite !blinking_centered_text_run. vm_compute. discriminate.
Qed.

(** C9, amended. For all strings, every world and every stream:
    a failed read of the terminal size is swallowed and the two texts are
    then written as they are; a text colour that is not in the table gets
    the code of ['white'], a background colour that is not in the table
    the code of ['red']; and the function raises only out of its two
    writes, which come after the [try]: it returns, both lines written,
    when the stream can encode both; it raises [UnicodeEncodeError] with
    nothing written when the stream cannot encode the first line, and
    with the first line written when it cannot encode the second.  On a
    stream that can encode every character it is the function of the
    statements above. *)
Theorem blinking_centered_text_raises_only_in_write (enc : ascii -> bool)
    (typemsg message : string) (blinking : Z) (text_color bg_color : string)
    (w : World) :
  exists t' m' : string,
    (columns_of (stty w (popens w)) = None -> t' = typemsg /\ m' = message)
    /\ (Py.getitem color_codes (Py.lower text_color) = None ->
        Py.getitem color_codes "white" = Some (text_code_of text_color))
    /\ (Py.getitem bg_codes (Py.lower bg_color) = None ->
        Py.getitem bg_codes "red" = Some (bg_code_of bg_color))
    /\ blinking_centered_text_enc enc typemsg message blinking
         text_color bg_color w
       = (let start :=
            ansi_start (Py.truthy blinking) (text_code_of text_color)
              (bg_code_of bg_color) in
          let l1 := start ++ t' ++ (Py.ESC ++ "[0m") ++ Py.NL in
          let l2 := start ++ m' ++ (Py.ESC ++ "[0m") ++ Py.NL in
          if encodes enc l1 then
            if encodes enc l2 then (Return tt, after_banner w [l1; l2])
            else (Raise (mkExn UnicodeEncodeError []), after_banner w [l1])
          else (Raise (mkExn UnicodeEncodeError []), after_banner w []))
    /\ blinking_centered_text_enc (fun _ => true) typemsg message blinking
         text_color bg_color w
       = blinking_centered_text typemsg message blinking text_color bg_color w.
Proof.
  exists (fst (after_try (stty w (popens w)) typemsg message)),
    (snd (after_try (stty w (popens w)) typemsg message)).
  split; [|split; [|split; [|split]]].
  - intro Hnone. unfold after_try. rewrite Hnone. split; reflexivity.
  - intro Hnone. unfold text_code_of, Py.get. rewrite Hnone. reflexivity.
  - intro Hnone. unfold bg_code_of, Py.get. rewrite Hnone. reflexivity.
  - rewrite blinking_centered_text_enc_run. reflexivity.
  - rewrite blinking_centered_text_enc_run, blinking_centered_text_run.
    unfold banner. rewrite !encodes_all. reflexivity.
Qed.

Lemma blinking_centered_text_raises_only_in_write_witness :
  blinking_centered_text_enc ascii_only "T" "m" 0 "purple" "orange" notty
  = (Return tt,
     after_banner notty
       [ansi_start false "37" "41" ++ "T" ++ (Py.ESC ++ "[0m") ++ Py.NL;
        ansi_start false "37" "41" ++ "m" ++ (Py.ESC ++ "[0m") ++ Py.NL])
  /\ Py.getitem color_codes "white" = Some (text_code_of "purple")
  /\ Py.getitem bg_codes "red" = Some (bg_code_of "orange").
Proof.
  destruct (blinking_centered_text_raises_only_in_write ascii_only
              "T" "m" 0 "purple" "orange" notty)
    as [t' [m' [Hplain [Htext [Hbg [Hrun _]]]]]].
  destruct (Hplain eq_refl) as [-> ->].
  split; [exact Hrun|].
  split; [exact (Htext eq_refl) | exact (Hbg eq_refl)].
Defined.

(** C10. For every colour of the table, with its code, the code is a
    decimal number [n] and the background code [blinking_centered_text]
    selects for that colour is [str(n + 10)], the value the comprehension
    stores under that name. *)
Theorem bg_code_is_text_code_plus_10 (name code : string) :
  In (name, code) color_codes ->
  exists (n : Z) (d : Py.dict string),
    Py.int code = Some n
    /\ bg_comprehension color_codes [] = Some d
    /\ Py.getitem d name = Some (Py.str (n + 10))
    /\ forall (text_color : string) (w : World),
         select_codes text_color name w
         = (Return (text_code_of text_color, Py.str (n + 10)), w).
Proof.
  intro H. simpl in H.
  repeat (destruct H as [H | H];
    [injection H as <- <-;
     eexists; exists bg_codes;
     split; [reflexivity|]; split; [reflexivity|]; split; [reflexivity|];
     intros; rewrite select_codes_run; reflexivity|]).
  contradiction.
Qed.

Lemma bg_code_is_text_code_plus_10_witness :
  exists (n : Z) (d : Py.dict string),
    Py.int "31" = Some n
    /\ bg_comprehension color_codes [] = Some d
    /\ Py.getitem d "red" = Some (Py.str (n + 10))
    /\ forall (text_color : string) (w : World),
         select_codes text_color "red" w
         = (Return (text_code_of text_color, Py.str (n + 10)), w).
Proof.
  apply (bg_code_is_text_code_plus_10 "red" "31").
  simpl. right. left. reflexivity.
Defined.

(** * Properties of the geolocation lookups *)

Lemma getitem_In {V} (d : Py.dict V) (k : string) (v : V) :
  Py.getitem d k = Some v -> In (k, v) d.
Proof.
  induction d as [|[k' v'] d IH]; simpl; [discriminate|].
  destruct (String.eqb k k') eqn:E.
  - apply String.eqb_eq in E. intros [= <-]. left. now subst.
  - intro H. right. now apply IH.
Qed.

Lemma getitem_None {V} (d : Py.dict V) (k : string) :
  Py.getitem d k = None <-> forall v, ~ In (k, v) d.
Proof.
  induction d as [|[k' v'] d IH]; simpl.
  - split; [intros _ v [] | reflexivity].
  - destruct (String.eqb k k') eqn:E.
    + apply String.eqb_eq in E. subst k'. split; [discriminate|].
      intro H. exfalso. apply (H v'). now left.
    + apply String.eqb_neq in E. rewrite IH. split.
      * intros H v [Heq | Hin]; [injection Heq as -> _; now apply E|].
        now apply (H v).
      * intros H v Hin. apply (H v). now right.
Qed.

Lemma In_build_index (table : list Geo.country) (k : string) (c : Geo.country) :
  In (k, c) (Geo.build_index table)
  <-> In c table /\ exists id, In id (Geo.identifiers c) /\ k = Geo.normalize id.
Proof.
  unfold Geo.build_index. rewrite in_flat_map. split.
  - intros [c' [Hc' Hin]]. apply in_map_iff in Hin.
    destruct Hin as [id [Heq Hid]]. injection Heq as <- <-. eauto.
  - intros [Hc [id [Hid ->]]]. exists c. split; [exact Hc|].
    apply in_map_iff. eauto.
Qed.

(** A name resolves exactly when it is known. *)
Lemma resolve_None (table : list Geo.country) (regs : Py.dict (list string))
    (s : string) :
  Geo.resolve (Geo.init table regs) s = None
  <-> ~ Geo.known (Geo.init table regs) s.
Proof.
  unfold Geo.resolve, Geo.known. cbn [Geo.index Geo.countries Geo.init].
  rewrite getitem_None. split.
  - intros H [c [k [Hc [Hk Heq]]]]. apply (H c).
    apply In_build_index. split; [exact Hc|]. exists k. now split.
  - intros H c Hin. apply In_build_index in Hin.
    destruct Hin as [Hc [id [Hid Heq]]]. apply H. exists c, id. now repeat split.
Qed.

(** In an unambiguous table, an identifier resolves to its own record. *)
Lemma resolve_identifier (table : list Geo.country)
    (regs : Py.dict (list string)) (c : Geo.country) (k s : string) :
  Geo.unambiguous table -> In c table -> In k (Geo.identifiers c) ->
  Geo.normalize s = Geo.normalize k ->
  Geo.resolve (Geo.init table regs) s = Some c.
Proof.
  intros Hu Hc Hk Hs.
  destruct (Geo.resolve (Geo.init table regs) s) as [c'|] eqn:E.
  - unfold Geo.resolve in E. cbn [Geo.index Geo.init] in E.
    apply getitem_In, In_build_index in E.
    destruct E as [Hc' [id [Hid Heq]]]. f_equal.
    apply (Hu c' c id k Hc' Hc Hid Hk). congruence.
  - apply resolve_None in E. exfalso. apply E. exists c, k. now repeat split.
Qed.

(** With the constructors of [error.py], the [raise CoaWhereError(...)] of
    an unknown name writes the error banner twice and ends in
    [sys.exit(0)]. *)
Lemma raise_CoaWhereError_run (A : Type) (message : string) (w : World) :
  @raise_new A CoaWhereError message w
  = (Raise exit0, after_two_banners w message).
Proof.
  unfold raise_new, construct, construct_with, bind.
  rewrite subclass_init_run by (simpl; tauto). reflexivity.
Qed.

(** For a name that is not a known country, [to_standard] without region
    interpretation is the statement [raise CoaWhereError(...)]. *)
Lemma to_standard_unknown_is_raise (message_for : string -> string)
    (table : list Geo.country) (regs : Py.dict (list string))
    (std : Geo.standard) (s : string) :
  ~ Geo.known (Geo.init table regs) s ->
  Geo.to_standard message_for (Geo.init table regs) std s false
  = raise_new CoaWhereError (message_for s).
Proof.
  intro Hunknown. apply resolve_None in Hunknown.
  unfold Geo.to_standard. now rewrite Hunknown.
Qed.

(** C5. What the code does where the claim has [CoaWhereError] raised: for
    every name that is not a known country, [to_standard] without region
    interpretation runs [raise CoaWhereError(...)], and with the
    constructors of [error.py] that statement writes the error banner
    (twice) and ends in the [SystemExit(0)] of the [CoaError]
    constructor.  No [CoaWhereError] reaches the caller: a handler for
    [CoaWhereError], for [CoaError] or for [IndexError] is not run, and
    the process exits with status 0. *)
Theorem to_standard_unknown_exits (message_for : string -> string)
    (table : list Geo.country) (regs : Py.dict (list string))
    (std : Geo.standard) (s : string) (w : World) :
  ~ Geo.known (Geo.init table regs) s ->
  Geo.to_standard message_for (Geo.init table regs) std s false w
  = (Raise (mkExn SystemExit [VInt 0]), after_two_banners w (message_for s))
  /\ (forall (cls : pyclass) (h : M (list string)),
        In cls [CoaWhereError; CoaError; IndexError] ->
        try_except_cls cls
          (Geo.to_standard message_for (Geo.init table regs) std s false) h w
        = (Raise (mkExn SystemExit [VInt 0]),
           after_two_banners w (message_for s)))
  /\ fate_of
       (fst (Geo.to_standard message_for (Geo.init table regs) std s false w))
     = Exits 0.
Proof.
  intro Hunknown.
  rewrite (to_standard_unknown_is_raise message_for table regs std s Hunknown).
  split; [apply raise_CoaWhereError_run|]. split.
  - intros cls h Hcls. unfold try_except_cls.
    rewrite raise_CoaWhereError_run. cbn [exn_class exit0].
    simpl in Hcls.
    repeat (destruct Hcls as [<- | Hcls]; [reflexivity|]). contradiction.
  - rewrite raise_CoaWhereError_run. reflexivity.
Qed.

Lemma to_standard_unknown_exits_witness :
  Geo.to_standard (fun s => s ++ " is unknown") sample_geo Geo.StdIso3
    "European Union" false tty80
  = (Raise (mkExn SystemExit [VInt 0]),
     after_two_banners tty80 ("European Union" ++ " is unknown"))
  /\ (forall (cls : pyclass) (h : M (list string)),
        In cls [CoaWhereError; CoaError; IndexError] ->
        try_except_cls cls
          (Geo.to_standard (fun s => s ++ " is unknown") sample_geo
             Geo.StdIso3 "European Union" false) h tty80
        = (Raise (mkExn SystemExit [VInt 0]),
           after_two_banners tty80 ("European Union" ++ " is unknown")))
  /\ fate_of
       (fst (Geo.to_standard (fun s => s ++ " is unknown") sample_geo
               Geo.StdIso3 "European Union" false tty80))
     = Exits 0.
Proof.
  apply (to_standard_unknown_exits (fun s => s ++ " is unknown")
           sample_countries sample_regions Geo.StdIso3 "European Union" tty80).
  apply resolve_None. reflexivity.
Defined.

(** C6. For every known region, the expansion returns a list without
    repetition whose elements are exactly the member codes of the region's
    membership list; it leaves the world as it is, and a second call
    returns the same list. *)
Theorem region_expansion_deduplicated (message_for : string -> string)
    (g : Geo.geo) (region : string) (members : list string) :
  Py.getitem (Geo.regions g) region = Some members ->
  exists l : list string,
    NoDup l
    /\ (forall code, In code l <-> In code members)
    /\ forall w : World,
         Geo.get_countries_from_region message_for g region w = (Return l, w)
         /\ (l1 <- Geo.get_countries_from_region message_for g region ;;
             l2 <- Geo.get_countries_from_region message_for g region ;;
             ret (l1, l2)) w
            = (Return (l, l), w).
Proof.
  intro Hreg. exists (nodup string_dec members).
  split; [apply NoDup_nodup|]. split; [intro code; apply nodup_In|].
  intro w. unfold Geo.get_countries_from_region, bind. rewrite Hreg.
  split; reflexivity.
Qed.

Lemma region_expansion_deduplicated_witness :
  exists l : list string,
    NoDup l
    /\ (forall code, In code l <-> In code ["FRA"; "DEU"; "FRA"])
    /\ forall w : World,
         Geo.get_countries_from_region (fun s => s) sample_geo
           "European Union" w = (Return l, w)
         /\ (l1 <- Geo.get_countries_from_region (fun s => s) sample_geo
                     "European Union" ;;
             l2 <- Geo.get_countries_from_region (fun s => s) sample_geo
                     "European Union" ;;
             ret (l1, l2)) w
            = (Return (l, l), w).
Proof.
  apply (region_expansion_deduplicated (fun s => s) sample_geo
           "European Union" ["FRA"; "DEU"; "FRA"]).
  reflexivity.
Defined.

Lemma sample_unambiguous : Geo.unambiguous sample_countries.
Proof.
  intros c1 c2 k1 k2 H1 H2 Hk1 Hk2 Heq.
  simpl in H1, H2.
  destruct H1 as [<- | [<- | [<- | []]]];
    destruct H2 as [<- | [<- | [<- | []]]];
    try reflexivity; exfalso;
    simpl in Hk1, Hk2;
    repeat (destruct Hk1 as [<- | Hk1]; [|]); try contradiction;
    repeat (destruct Hk2 as [<- | Hk2]; [|]); try contradiction;
    vm_compute in Heq; discriminate Heq.
Qed.

(** C7. Two inputs that differ only in casing resolve alike; and in a
    table where no identifier belongs to two records, every casing
    variant of every identifier of a country (its name, a code, a name
    variant) resolves to the record of that country, the same as its
    canonical name does. *)
Theorem resolve_same_record (table : list Geo.country)
    (regs : Py.dict (list string)) :
  Geo.unambiguous table ->
  (forall s s' : string,
     Py.lower s = Py.lower s' ->
     Geo.resolve (Geo.init table regs) s = Geo.resolve (Geo.init table regs) s')
  /\ (forall (c : Geo.country) (k s : string),
        In c table -> In k (Geo.identifiers c) -> Py.lower s = Py.lower k ->
        Geo.resolve (Geo.init table regs) s = Some c
        /\ Geo.resolve (Geo.init table regs) s
           = Geo.resolve (Geo.init table regs) k
        /\ Geo.resolve (Geo.init table regs) s
           = Geo.resolve (Geo.init table regs) (Geo.name c)).
Proof.
  intro Hu. split.
  - intros s s' Heq. unfold Geo.resolve, Geo.normalize. now rewrite Heq.
  - intros c k s Hc Hk Heq.
    assert (Hs : Geo.resolve (Geo.init table regs) s = Some c)
      by exact (resolve_identifier table regs c k s Hu Hc Hk Heq).
    assert (Hk' : Geo.resolve (Geo.init table regs) k = Some c)
      by exact (resolve_identifier table regs c k k Hu Hc Hk eq_refl).
    assert (Hn : Geo.resolve (Geo.init table regs) (Geo.name c) = Some c).
    { apply (resolve_identifier table regs c (Geo.name c) (Geo.name c) Hu Hc);
        [left; reflexivity | reflexivity]. }
    rewrite Hs, Hk', Hn. repeat split.
Qed.

Lemma resolve_same_record_witness :
  Geo.resolve sample_geo "fRaNcE" = Geo.resolve sample_geo "FRANCE"
  /\ Geo.resolve sample_geo "ENGLAND"
     = Some (Geo.mkCountry "United Kingdom" "GB" "GBR" "826" ["England"; "UK"])
  /\ Geo.resolve sample_geo "gbr" = Geo.resolve sample_geo "United Kingdom".
Proof.
  destruct (resolve_same_record sample_countries sample_regions
              sample_unambiguous) as [Hcase Hident].
  split; [apply Hcase; reflexivity|].
  pose proof (Hident
                (Geo.mkCountry "United Kingdom" "GB" "GBR" "826"
                   ["England"; "UK"])
                "England" "ENGLAND"
                ltac:(simpl; tauto) ltac:(simpl; tauto) eq_refl) as [H1 _].
  split; [exact H1|].
  pose proof (Hident
                (Geo.mkCountry "United Kingdom" "GB" "GBR" "826"
                   ["England"; "UK"])
                "GBR" "gbr"
                ltac:(simpl; tauto) ltac:(simpl; tauto) eq_refl) as [_ [_ H3]].
  exact H3.
Defined.

(** * Further properties of [error.py] *)

(** ** The colour arguments *)

(** X1. The output of [blinking_centered_text] depends on the colour names
    only up to their casing, and on [blinking] only through its truth
    value. *)
Theorem colours_up_to_case (typemsg message : string) (b1 b2 : Z)
    (tc1 tc2 bc1 bc2 : string) (w : World) :
  Py.lower tc1 = Py.lower tc2 -> Py.lower bc1 = Py.lower bc2 ->
  Py.truthy b1 = Py.truthy b2 ->
  blinking_centered_text typemsg message b1 tc1 bc1 w
  = blinking_centered_text typemsg message b2 tc2 bc2 w.
Proof.
  intros Ht Hb Hbl. rewrite !blinking_centered_text_run.
  unfold banner, text_code_of, bg_code_of. now rewrite Ht, Hb, Hbl.
Qed.

Lemma colours_up_to_case_witness :
  blinking_centered_text "T" "m" 1 "WHITE" "Red" tty80
  = blinking_centered_text "T" "m" 7 "white" "rED" tty80.
Proof.
  apply (colours_up_to_case "T" "m" 1 7 "WHITE" "white" "Red" "rED" tty80);
    reflexivity.
Defined.

(** X2. Called with the defaults of its signature ([blinking=0],
    [text_color='37'], [bg_color='41'], which are codes and not names of
    the table), [blinking_centered_text] writes what it writes for a
    steady white text on a red background. *)
Theorem defaults_are_white_on_red (typemsg message : string) (w : World) :
  blinking_centered_text_defaults typemsg message w
  = blinking_centered_text typemsg message 0 "white" "red" w
  /\ Py.getitem color_codes (Py.lower "37") = None
  /\ Py.getitem bg_codes (Py.lower "41") = None.
Proof.
  unfold blinking_centered_text_defaults.
  rewrite !blinking_centered_text_run. repeat split.
Qed.

Lemma get_in_values {V} (d : Py.dict V) (k : string) (default : V) :
  In default (map snd d) -> In (Py.get d k default) (map snd d).
Proof.
  intro Hd. unfold Py.get. destruct (Py.getitem d k) as [v|] eqn:E.
  - apply getitem_In in E. apply in_map_iff. exists (k, v). now split.
  - exact Hd.
Qed.

(** X3. Whatever strings are passed as colours, the two codes put in the
    start sequence are codes of the tables: one of 30 to 37 or 39 for the
    text, one of 40 to 47 or 49 for the background.  The colour arguments
    themselves never reach the output. *)
Theorem selected_codes_are_table_codes (text_color bg_color : string)
    (w : World) :
  exists text_code bg_code : string,
    select_codes text_color bg_color w = (Return (text_code, bg_code), w)
    /\ In text_code ["30"; "31"; "32"; "33"; "34"; "35"; "36"; "37"; "39"]
    /\ In bg_code ["40"; "41"; "42"; "43"; "44"; "45"; "46"; "47"; "49"].
Proof.
  exists (text_code_of text_color), (bg_code_of bg_color).
  split; [apply select_codes_run|]. split.
  - apply (get_in_values color_codes). simpl. tauto.
  - apply (get_in_values bg_codes). simpl. tauto.
Qed.

(** ** The width of the written texts *)

Lemma length_append (a b : string) :
  String.length (a ++ b) = (String.length a + String.length b)%nat.
Proof. induction a as [|c a IH]; simpl; [reflexivity | now rewrite IH]. Qed.

Lemma len_append (a b : string) : Py.len (a ++ b) = (Py.len a + Py.len b)%Z.
Proof. unfold Py.len. rewrite length_append. lia. Qed.

Lemma length_repeat_space (n : nat) :
  String.length (String.concat "" (repeat " " n)) = n.
Proof.
  induction n as [|n IH]; [reflexivity|].
  change (repeat " " (S n)) with (" " :: repeat " " n).
  destruct n as [|n]; [reflexivity|].
  change (String.concat "" (" " :: repeat " " (S n)))
    with (" " ++ "" ++ String.concat "" (repeat " " (S n))).
  rewrite !length_append, IH. reflexivity.
Qed.

Lemma len_spaces (n : Z) : (0 <= n)%Z -> Py.len (Py.spaces n) = n.
Proof.
  intro Hn. unfold Py.len, Py.spaces. rewrite length_repeat_space. lia.
Qed.

(** [center] fails on the width alone. *)
Lemma center_None (s : string) (width : Z) :
  Py.center s width = None
  <-> ~ (- Py.SSIZE_MAX - 1 <= width <= Py.SSIZE_MAX)%Z.
Proof.
  unfold Py.center.
  destruct (width <? - Py.SSIZE_MAX - 1)%Z eqn:E1;
    destruct (Py.SSIZE_MAX <? width)%Z eqn:E2; cbn [orb];
    try apply Z.ltb_lt in E1; try apply Z.ltb_ge in E1;
    try apply Z.ltb_lt in E2; try apply Z.ltb_ge in E2;
    try (split; [lia | reflexivity]).
  split; [|lia]. destruct (width <=? Py.len s)%Z; discriminate.
Qed.

Lemma center_len (s s' : string) (width : Z) :
  Py.center s width = Some s' -> Py.len s' = Z.max (Py.len s) width.
Proof.
  unfold Py.center.
  destruct ((width <? - Py.SSIZE_MAX - 1) || (Py.SSIZE_MAX <? width))%Z;
    [discriminate|].
  destruct (width <=? Py.len s)%Z eqn:E.
  - apply Z.leb_le in E. intros [= <-]. lia.
  - apply Z.leb_gt in E. intros [= <-].
    set (marg := (width - Py.len s)%Z).
    pose proof (center_rounding_bit marg width) as Hb.
    pose proof (Z.div_mod marg 2 ltac:(lia)) as Hd.
    pose proof (Z.mod_pos_bound marg 2 ltac:(lia)) as Hm.
    rewrite !len_append, !len_spaces by lia. lia.
Qed.

(** X4. When [stty size] gives a column count that fits [Py_ssize_t], the
    text of each written line is as long as the longer of the original
    text and the column count: a text longer than the terminal is written
    whole, not cut, and two texts that fit are written with the same
    length, the width of the terminal. *)
Theorem written_texts_width (typemsg message : string) (blinking : Z)
    (text_color bg_color : string) (w : World) (columns : Z) :
  columns_of (stty w (popens w)) = Some columns ->
  (- Py.SSIZE_MAX - 1 <= columns <= Py.SSIZE_MAX)%Z ->
  exists t' m' : string,
    stdout (snd (blinking_centered_text typemsg message blinking
                   text_color bg_color w))
    = List.app (stdout w)
        [banner_line (ansi_start (Py.truthy blinking)
                        (text_code_of text_color) (bg_code_of bg_color)) t';
         banner_line (ansi_start (Py.truthy blinking)
                        (text_code_of text_color) (bg_code_of bg_color)) m']
    /\ Py.len t' = Z.max (Py.len typemsg) columns
    /\ Py.len m' = Z.max (Py.len message) columns
    /\ (columns <= Py.len typemsg -> t' = typemsg)%Z
    /\ (columns <= Py.len message -> m' = message)%Z.
Proof.
  intros Hcols Hfit.
  destruct (center_padded typemsg columns Hfit) as [t' [Ht _]].
  destruct (center_padded message columns Hfit) as [m' [Hm _]].
  exists t', m'. rewrite blinking_centered_text_run.
  unfold after_banner, banner, after_try. cbn [snd stdout].
  rewrite Hcols, Ht, Hm. split; [reflexivity|].
  split; [now apply center_len|]. split; [now apply center_len|].
  unfold Py.center in Ht, Hm.
  destruct ((columns <? - Py.SSIZE_MAX - 1) || (Py.SSIZE_MAX <? columns))%Z;
    [discriminate|].
  split; intro Hle; apply Z.leb_le in Hle.
  - rewrite Hle in Ht. now injection Ht.
  - rewrite Hle in Hm. now injection Hm.
Qed.

Lemma written_texts_width_witness :
  exists t' m' : string,
    stdout (snd (blinking_centered_text "PYCOA Info !" "done" 0
                   "white" "blue" tty80))
    = [banner_line (ansi_start false "37" "44") t';
       banner_line (ansi_start false "37" "44") m']
    /\ Py.len t' = 80%Z /\ Py.len m' = 80%Z.
Proof.
  destruct (written_texts_width "PYCOA Info !" "done" 0 "white" "blue"
              tty80 80 eq_refl ltac:(unfold Py.SSIZE_MAX; lia))
    as [t' [m' [Hout [Ht [Hm _]]]]].
  exists t', m'. repeat split; assumption.
Defined.

(** X5. The [try] statement centres both texts, in the same number of
    columns, or leaves both as they were: no banner has one line centred
    and the other not.  Either way one read of the terminal is made and
    nothing is raised. *)
Theorem both_centred_or_neither (typemsg message : string) (w : World) :
  exists p : string * string,
    try_center typemsg message w
    = (Return p, mkWorld (stty w) (S (popens w)) (stdout w))
    /\ (p = (typemsg, message)
        \/ exists (columns : Z) (t' m' : string),
             columns_of (stty w (popens w)) = Some columns
             /\ Py.center typemsg columns = Some t'
             /\ Py.center message columns = Some m'
             /\ p = (t', m')).
Proof.
  eexists. split; [apply try_center_run|].
  unfold after_try.
  destruct (columns_of (stty w (popens w))) as [columns|]; [|now left].
  destruct (Py.center typemsg columns) as [t'|] eqn:Ht; [|now left].
  destruct (Py.center message columns) as [m'|] eqn:Hm.
  - right. exists columns, t', m'. repeat split; assumption || reflexivity.
  - exfalso. apply center_None in Hm. apply Hm.
    destruct (Z_le_dec (- Py.SSIZE_MAX - 1) columns) as [H1|H1];
      [destruct (Z_le_dec columns Py.SSIZE_MAX) as [H2|H2]; [now split|]|];
      exfalso;
      assert (Hn : Py.center typemsg columns = None)
        by (apply center_None; lia); congruence.
Qed.

(** ** Reading the answer of [stty size] *)

Lemma append_assoc3 (a b c : string) : (a ++ b) ++ c = a ++ b ++ c.
Proof. induction a as [|x a IH]; simpl; [reflexivity | now rewrite IH]. Qed.

Lemma digit_not_space (c : ascii) (d : Z) :
  Py.digit_of c = Some d -> Py.isspace c = false.
Proof.
  unfold Py.digit_of, Py.isspace.
  destruct ((48 <=? nat_of_ascii c)%nat && (nat_of_ascii c <=? 57)%nat) eqn:E;
    [|discriminate].
  intros _. apply andb_true_iff in E. destruct E as [E1 E2].
  apply Nat.leb_le in E1.
  apply orb_false_iff. split; apply andb_false_iff; right;
    apply Nat.leb_gt; lia.
Qed.

Lemma digits_only_no_space (s : string) :
  digits_only s = true -> no_space s = true.
Proof.
  induction s as [|c s IH]; simpl; [reflexivity|].
  destruct (Py.digit_of c) as [d|] eqn:E; [|discriminate].
  intro H. rewrite (digit_not_space c d E). simpl. now apply IH.
Qed.

Lemma split_from_word (s w rest : string) :
  no_space s = true ->
  Py.split_from (Some w) (s ++ rest) = Py.split_from (Some (w ++ s)) rest.
Proof.
  revert w. induction s as [|c s IH]; intros w H; simpl in *.
  - now rewrite append_empty_r.
  - apply andb_true_iff in H. destruct H as [Hc Hs].
    apply negb_true_iff in Hc. rewrite Hc, (IH _ Hs), append_assoc3.
    reflexivity.
Qed.

Lemma split_from_start (c : ascii) (s rest : string) :
  no_space (String c s) = true ->
  Py.split_from None (String c s ++ rest)
  = Py.split_from (Some (String c s)) rest.
Proof.
  simpl. intro H. apply andb_true_iff in H. destruct H as [Hc Hs].
  apply negb_true_iff in Hc. rewrite Hc. now rewrite split_from_word.
Qed.

Lemma split_from_space (w rest : string) :
  Py.split_from (Some w) (" " ++ rest) = w :: Py.split_from None rest.
Proof. reflexivity. Qed.

Lemma split_from_newline (w : string) : Py.split_from (Some w) Py.NL = [w].
Proof. reflexivity. Qed.

(** Two words, a space between them and a newline after, split in two. *)
Lemma split_two_words (a b : string) :
  no_space a = true -> no_space b = true -> a <> "" -> b <> "" ->
  Py.split (a ++ " " ++ b ++ Py.NL) = [a; b].
Proof.
  intros Ha Hb Hna Hnb. unfold Py.split.
  destruct a as [|ca a]; [contradiction|].
  destruct b as [|cb b]; [contradiction|].
  rewrite split_from_start by exact Ha.
  rewrite split_from_space.
  rewrite split_from_start by exact Hb.
  now rewrite split_from_newline.
Qed.

Lemma rev_string_twice (s a b : string) :
  Py.rev_string b (Py.rev_string a s) = Py.rev_string (s ++ b) a.
Proof.
  revert a. induction s as [|c s IH]; intro a; simpl; [reflexivity|].
  now rewrite IH.
Qed.

Lemma rev_string_no_space (acc s : string) :
  no_space acc = true -> no_space s = true ->
  no_space (Py.rev_string acc s) = true.
Proof.
  revert acc. induction s as [|c s IH]; intros acc Ha Hs; simpl in *;
    [exact Ha|].
  apply andb_true_iff in Hs. destruct Hs as [Hc Hs].
  apply IH; [simpl; now rewrite Hc | exact Hs].
Qed.

Lemma lstrip_no_space (s : string) : no_space s = true -> Py.lstrip s = s.
Proof.
  destruct s as [|c s]; simpl; [reflexivity|].
  intro H. apply andb_true_iff in H. destruct H as [Hc _].
  apply negb_true_iff in Hc. now rewrite Hc.
Qed.

Lemma strip_no_space (s : string) : no_space s = true -> Py.strip s = s.
Proof.
  intro H. unfold Py.strip.
  rewrite (lstrip_no_space s H).
  rewrite lstrip_no_space by (now apply rev_string_no_space).
  rewrite rev_string_twice. simpl. apply append_empty_r.
Qed.

(** A string of digits has no sign to take off. *)
Lemma int_digits_only (s : string) :
  digits_only s = true -> Py.int s = Py.digits 0 false s.
Proof.
  intro H. unfold Py.int.
  rewrite strip_no_space by (now apply digits_only_no_space).
  destruct s as [|c r]; [reflexivity|].
  simpl in H. destruct (Py.digit_of c) as [d|] eqn:E; [|discriminate].
  destruct c as [b0 b1 b2 b3 b4 b5 b6 b7].
  destruct b0, b1, b2, b3, b4, b5, b6, b7;
    try (vm_compute in E; discriminate E); reflexivity.
Qed.

Ltac eval_digit :=
  match goal with
  | |- context [Py.digit_of ?c] =>
      let v := eval vm_compute in (Py.digit_of c) in
      change (Py.digit_of c) with v; cbv iota beta
  end.

Ltac digit_step IH :=
  cbn [NilEmpty.string_of_uint Pos.of_uint_acc Py.digits]; eval_digit;
  match goal with
  | |- Py.digits ?z true _ = Some (Z.pos (Pos.of_uint_acc _ ?q)) =>
      replace z with (Z.pos q) by lia; apply IH
  end.

Lemma digits_of_uint_acc (l : Decimal.uint) (p : positive) :
  Py.digits (Z.pos p) true (NilEmpty.string_of_uint l)
  = Some (Z.pos (Pos.of_uint_acc l p)).
Proof.
  revert p. induction l as [|l IH|l IH|l IH|l IH|l IH|l IH|l IH|l IH|l IH|l IH];
    intro p; [reflexivity| digit_step IH ..].
Qed.

Lemma digits_of_uint (l : Decimal.uint) :
  Py.digits 0 true (NilEmpty.string_of_uint l) = Some (Z.of_N (Pos.of_uint l)).
Proof.
  induction l as [|l IH|l IH|l IH|l IH|l IH|l IH|l IH|l IH|l IH|l IH];
    [reflexivity
    | cbn [NilEmpty.string_of_uint Pos.of_uint Py.digits]; eval_digit;
      exact IH
    | cbn [NilEmpty.string_of_uint Pos.of_uint Py.digits]; eval_digit;
      cbn [Z.of_N]; apply digits_of_uint_acc ..].
Qed.

Lemma digits_only_of_uint (l : Decimal.uint) :
  digits_only (NilEmpty.string_of_uint l) = true.
Proof. induction l; simpl; [reflexivity | exact IHl ..]. Qed.

Lemma str_digits (n : Z) :
  (0 <= n)%Z -> digits_only (Py.str n) = true /\ Py.str n <> "".
Proof.
  intro Hn. unfold Py.str. destruct n as [|p|p]; [split; [reflexivity|discriminate]| |lia].
  cbn [Z.to_int NilZero.string_of_int].
  destruct (Pos.to_uint p) eqn:E; cbn [NilZero.string_of_uint];
    try (split; [reflexivity | discriminate]);
    (split; [apply (digits_only_of_uint (_ u)) | simpl; discriminate]).
Qed.

(** [int(str(n))] is [n], for [n] not negative. *)
Lemma int_str (n : Z) : (0 <= n)%Z -> Py.int (Py.str n) = Some n.
Proof.
  intro Hn. rewrite int_digits_only by (now apply str_digits).
  unfold Py.str. destruct n as [|p|p]; [reflexivity| |lia].
  cbn [Z.to_int NilZero.string_of_int].
  pose proof (Unsigned.of_to p) as Hp.
  destruct (Pos.to_uint p) as [|l|l|l|l|l|l|l|l|l|l] eqn:E;
    cbn [NilZero.string_of_uint]; [discriminate Hp|..];
    change (Z.pos p) with (Z.of_N (N.pos p));
    rewrite <- Hp, <- digits_of_uint; reflexivity.
Qed.

(** X6. On a terminal of [rows] by [columns], where [stty size] prints the
    two numbers in decimal with a space between and a newline after, the
    [try] statement reads [columns] back, and the two lines are the texts
    centred in [columns] columns. *)
Theorem banner_on_terminal (rows columns : Z) (typemsg message : string)
    (blinking : Z) (text_color bg_color : string) (w : World) :
  (0 <= rows)%Z -> (0 <= columns <= Py.SSIZE_MAX)%Z ->
  stty w (popens w) = Some (stty_answer rows columns) ->
  columns_of (stty w (popens w)) = Some columns
  /\ exists t' m' : string,
       Py.center typemsg columns = Some t'
       /\ Py.center message columns = Some m'
       /\ stdout (snd (blinking_centered_text typemsg message blinking
                         text_color bg_color w))
          = List.app (stdout w)
              [banner_line (ansi_start (Py.truthy blinking)
                              (text_code_of text_color)
                              (bg_code_of bg_color)) t';
               banner_line (ansi_start (Py.truthy blinking)
                              (text_code_of text_color)
                              (bg_code_of bg_color)) m'].
Proof.
  intros Hr [Hc0 Hc1] Hstty.
  assert (Hcols : columns_of (stty w (popens w)) = Some columns).
  { rewrite Hstty. unfold columns_of, stty_answer.
    destruct (str_digits rows Hr) as [Hdr Hnr].
    destruct (str_digits columns Hc0) as [Hdc Hnc].
    rewrite split_two_words
      by (try apply digits_only_no_space; assumption).
    cbn [unpack2 snd]. now apply int_str. }
  split; [exact Hcols|].
  assert (Hfit : (- Py.SSIZE_MAX - 1 <= columns <= Py.SSIZE_MAX)%Z)
    by (unfold Py.SSIZE_MAX in *; lia).
  destruct (center_padded typemsg columns Hfit) as [t' [Ht _]].
  destruct (center_padded message columns Hfit) as [m' [Hm _]].
  exists t', m'. split; [exact Ht|]. split; [exact Hm|].
  rewrite blinking_centered_text_run.
  unfold after_banner, banner, after_try. cbn [snd stdout].
  now rewrite Hcols, Ht, Hm.
Qed.

Lemma banner_on_terminal_witness :
  columns_of (stty tty80 (popens tty80)) = Some 80%Z
  /\ exists t' m' : string,
       Py.center "PYCOA Warning !" 80 = Some t'
       /\ Py.center "slow" 80 = Some m'
       /\ stdout (snd (blinking_centered_text "PYCOA Warning !" "slow" 0
                         "white" "magenta" tty80))
          = [banner_line (ansi_start false "37" "45") t';
             banner_line (ansi_start false "37" "45") m'].
Proof.
  apply (banner_on_terminal 24 80 "PYCOA Warning !" "slow" 0
           "white" "magenta" tty80).
  - lia.
  - unfold Py.SSIZE_MAX. lia.
  - reflexivity.
Defined.

(** ** The constructors, class by class *)

Lemma construct_plain_run (message : string) (w : World) :
  construct CoaInfo message w
  = (Return (mkExn CoaInfo [VStr message]),
     after_banner w (info_banner w message))
  /\ construct CoaDBInfo message w
     = (Return (mkExn CoaDBInfo [VStr message]),
        after_banner w (dbinfo_banner w message))
  /\ construct CoaWarning message w
     = (Return (mkExn CoaWarning [VStr message]),
        after_banner w (warning_banner w message)).
Proof.
  unfold construct, construct_with, bind. cbn [init_of].
  rewrite CoaInfo_init_run, CoaDBInfo_init_run, CoaWarning_init_run.
  repeat split.
Qed.

Lemma construct_CoaError_run (message : string) (w : World) :
  construct CoaError message w
  = (Raise exit0, after_banner w (error_banner w message)).
Proof. apply CoaError_new_run. Qed.

Lemma construct_subclass_run (c : pyclass) (message : string) (w : World) :
  In c CoaError_subclasses ->
  construct c message w = (Raise exit0, after_two_banners w message).
Proof.
  intro Hc. unfold construct, construct_with, bind.
  now rewrite subclass_init_run.
Qed.

Ltac construct_cases c message w :=
  pose proof (construct_plain_run message w) as [? [? ?]];
  pose proof (construct_CoaError_run message w);
  destruct c;
  try match goal with
      | |- context [construct ?k _ _] =>
          rewrite (construct_subclass_run k message w) by (simpl; tauto)
      end.

(** X7. A call [c(message)] never returns an instance when [c] is
    [CoaError] or one of its subclasses: it ends in [SystemExit(0)], and
    whatever follows the call is not run.  For [CoaInfo], [CoaDBInfo],
    [CoaWarning] and the built-in exception classes that take a message,
    the call returns the instance, with [args = (message,)], and what
    follows runs in the world the constructor left; [object(message)] and
    [UnicodeEncodeError(message)] are a [TypeError]. *)
Theorem construct_outcome (B : Type) (c : pyclass) (message : string)
    (k : exn -> M B) (w : World) :
  fst (construct c message w)
  = (if issubclass c CoaError then Raise (mkExn SystemExit [VInt 0])
     else match c with
          | object =>
              Raise (mkExn TypeError [VStr "object() takes no arguments"])
          | UnicodeEncodeError =>
              Raise (mkExn TypeError
                       [VStr "function takes exactly 5 arguments (1 given)"])
          | _ => Return (mkExn c [VStr message])
          end)
  /\ (e <- construct c message ;; k e) w
     = (if issubclass c CoaError
        then (Raise (mkExn SystemExit [VInt 0]), snd (construct c message w))
        else match c with
             | object =>
                 (Raise (mkExn TypeError [VStr "object() takes no arguments"]),
                  w)
             | UnicodeEncodeError =>
                 (Raise (mkExn TypeError
                           [VStr "function takes exactly 5 arguments (1 given)"]),
                  w)
             | _ => k (mkExn c [VStr message]) (snd (construct c message w))
             end).
Proof.
  unfold bind.
  construct_cases c message w;
    repeat match goal with H : construct _ _ _ = _ |- _ => rewrite H end;
    split; reflexivity.
Qed.

(** X8. For every class, the constructor reads the terminal once per
    banner and writes two strings per banner, after what was written
    before: one banner for [CoaInfo], [CoaDBInfo], [CoaWarning] and
    [CoaError], two for each subclass of [CoaError], none for a built-in
    class. *)
Theorem construct_reads_and_writes (c : pyclass) (message : string)
    (w : World) :
  popens (snd (construct c message w)) = (popens w + banners_of c)%nat
  /\ stty (snd (construct c message w)) = stty w
  /\ exists lines : list string,
       stdout (snd (construct c message w)) = List.app (stdout w) lines
       /\ List.length lines = (2 * banners_of c)%nat.
Proof.
  construct_cases c message w;
    repeat match goal with H : construct _ _ _ = _ |- _ => rewrite H end;
    try match goal with
        | |- context [snd (construct ?k message w)] =>
            change (snd (construct k message w)) with w
        end;
    cbn [snd banners_of after_two_banners after_banner popens stty stdout];
    (split; [lia|]); (split; [reflexivity|]);
    try (eexists; split; [reflexivity | reflexivity]);
    try (exists []; split; [now rewrite app_nil_r | reflexivity]).
  all: rewrite <- app_assoc; eexists; split; reflexivity.
Qed.

(** X9. The constructor of each of the seven subclasses of [CoaError]
    writes the error banner twice, once itself and once through the
    [CoaError] it constructs; each banner is centred by its own read of
    the terminal, and when the two reads give the same answer the four
    strings written are the same two lines, twice. *)
Theorem subclass_banner_twice (c : pyclass) (message : string) (w : World) :
  In c CoaError_subclasses ->
  stdout (snd (construct c message w))
  = List.app (stdout w)
      (List.app (error_banner w message)
         (error_banner (after_banner w (error_banner w message)) message))
  /\ (stty w (S (popens w)) = stty w (popens w) ->
      stdout (snd (construct c message w))
      = List.app (stdout w)
          (List.app (error_banner w message) (error_banner w message))).
Proof.
  intro Hc. rewrite (construct_subclass_run c message w Hc). cbn [snd].
  rewrite stdout_after_two_banners. split; [reflexivity|].
  intro Hsame. unfold error_banner, banner, after_banner. cbn [stty popens].
  now rewrite Hsame.
Qed.

Lemma subclass_banner_twice_witness :
  stdout (snd (construct CoaTypeError "not a list" tty80))
  = List.app (error_banner tty80 "not a list")
      (error_banner tty80 "not a list").
Proof.
  destruct (subclass_banner_twice CoaTypeError "not a list" tty80) as [_ H].
  - simpl. tauto.
  - exact (H eq_refl).
Defined.

(** X10. When [raise c(message)] is run for [CoaError] or one of its
    subclasses, an [except cls] clause takes what is raised exactly when
    [cls] is [SystemExit] or [BaseException]; an [except Exception], like
    an [except] for any class of the module, lets the exit through, and an
    [except object] is a [TypeError], as [object] does not derive from
    [BaseException].  A bare [except] takes the exit. *)
Theorem exit_and_handlers (A : Type) (c cls : pyclass) (message : string)
    (h : M A) (w : World) :
  In c CoaError_family ->
  try_except_cls cls (raise_new c message) h w
  = (if existsb (pyclass_eqb cls) [SystemExit; BaseException]
     then h (snd (construct c message w))
     else if pyclass_eqb cls object
     then (Raise (mkExn TypeError
                    [VStr "catching classes that do not inherit from BaseException is not allowed"]),
           snd (construct c message w))
     else (Raise (mkExn SystemExit [VInt 0]), snd (construct c message w)))
  /\ try_except (raise_new c message) h w = h (snd (construct c message w))
  /\ fate_of (fst (@raise_new A c message w)) = Exits 0.
Proof.
  intro Hc.
  assert (Hrun : exists w', construct c message w = (Raise exit0, w')).
  { simpl in Hc. destruct Hc as [<- | Hc].
    - eexists. apply construct_CoaError_run.
    - eexists. apply construct_subclass_run. exact Hc. }
  destruct Hrun as [w' Hrun].
  unfold try_except_cls, try_except, raise_new, bind. rewrite Hrun.
  cbn [snd fst exn_class exit0]. repeat split.
  destruct cls; reflexivity.
Qed.

Lemma exit_and_handlers_witness :
  try_except_cls Exception (raise_new CoaDbError "no such base") (ret tt) tty80
  = (Raise (mkExn SystemExit [VInt 0]),
     snd (construct CoaDbError "no such base" tty80))
  /\ try_except_cls BaseException (raise_new CoaDbError "no such base")
       (ret tt) tty80
     = (Return tt, snd (construct CoaDbError "no such base" tty80)).
Proof.
  split.
  - apply (exit_and_handlers unit CoaDbError Exception "no such base"
             (ret tt) tty80). simpl. tauto.
  - apply (exit_and_handlers unit CoaDbError BaseException "no such base"
             (ret tt) tty80). simpl. tauto.
Defined.

(** X11. Every class of the module is a subclass of [Exception] and none
    is a subclass of [SystemExit]; through their second bases,
    [CoaNoData] and [CoaWhereError] are the module's subclasses of
    [IndexError], these two and [CoaLookupError] its subclasses of
    [LookupError], [CoaTypeError] its subclass of [TypeError], and
    [CoaConnectionError] its subclass of [OSError]. *)
Theorem module_classes_ancestry (c : pyclass) :
  In c module_classes ->
  subclass c Exception /\ ~ subclass c SystemExit
  /\ (subclass c IndexError <-> In c [CoaNoData; CoaWhereError])
  /\ (subclass c LookupError
      <-> In c [CoaNoData; CoaWhereError; CoaLookupError])
  /\ (subclass c TypeError <-> c = CoaTypeError)
  /\ (subclass c OSError <-> c = CoaConnectionError)
  /\ (subclass c ConnectionError <-> c = CoaConnectionError).
Proof.
  intro Hc.
  assert (Hiff : forall d (l : list pyclass),
             issubclass c d = existsb (pyclass_eqb c) l ->
             (subclass c d <-> In c l)).
  { intros d l E. rewrite <- issubclass_spec, E, existsb_exists. split.
    - intros [x [Hx Heq]]. apply pyclass_eqb_eq in Heq. now subst.
    - intro Hin. exists c. split; [exact Hin|]. now apply pyclass_eqb_eq. }
  assert (Hone : forall d k,
             issubclass c d = pyclass_eqb c k -> (subclass c d <-> c = k)).
  { intros d k E. rewrite <- issubclass_spec, E. apply pyclass_eqb_eq. }
  simpl in Hc.
  repeat (destruct Hc as [<- | Hc];
    [split; [apply issubclass_spec; reflexivity|];
     split; [intro H; apply issubclass_spec in H; discriminate H|];
     split; [apply Hiff; reflexivity|];
     split; [apply Hiff; reflexivity|];
     split; [apply Hone; reflexivity|];
     split; apply Hone; reflexivity|]).
  contradiction.
Qed.

Lemma module_classes_ancestry_witness :
  subclass CoaWhereError Exception /\ ~ subclass CoaWhereError SystemExit
  /\ (subclass CoaWhereError IndexError
      <-> In CoaWhereError [CoaNoData; CoaWhereError])
  /\ (subclass CoaWhereError LookupError
      <-> In CoaWhereError [CoaNoData; CoaWhereError; CoaLookupError])
  /\ (subclass CoaWhereError TypeError <-> CoaWhereError = CoaTypeError)
  /\ (subclass CoaWhereError OSError <-> CoaWhereError = CoaConnectionError)
  /\ (subclass CoaWhereError ConnectionError
      <-> CoaWhereError = CoaConnectionError).
Proof.
  apply (module_classes_ancestry CoaWhereError). simpl. tauto.
Defined.
